(** * Unit quaternions (versors): a shallow embedding of [quaternions/quaternion.py]

    The Python class [Quaternion] extends [GeneralQuaternion] with the
    unit-norm invariant and the rotation operations.  The numbers of the
    program are modelled by the real numbers of the Standard Library, so
    the statements below are about exact real arithmetic; rounding is
    modelled in the module [Binary64] only, which runs the round trip through
    the rotation matrix on binary64 numbers. *)

From Stdlib Require Import String.
From Stdlib Require Import PrimFloat.
From Stdlib Require Import Reals Lra Lia List Bool PeanoNat.
Import ListNotations.
Open Scope R_scope.

(** A decimal float literal denotes the nearest binary64 value, as in Python. *)
Set Warnings "-inexact-float".

(** ** Exceptions and results *)

(** The arguments of the two format strings used by the class. *)
Inductive message : Type :=
| unstable_quaternion (q : list R)   (* 'provided numerically unstable quaternion: %s' % q *)
| cant_multiply_by.                  (* 'cant multiply by %s' % type(p) *)

(** Exception classes that the modelled code can raise.  [QuaternionError]
    is the single class the module imports and raises itself; [ValueError]
    is numpy's answer to arrays whose shapes do not fit, [TypeError] is
    Python's answer to a call with the wrong number of arguments and to
    [len] of an object that has no length. *)
Inductive exception : Type :=
| QuaternionError (msg : message)
| ValueError
| TypeError.

(** The class of an exception: Python's [type(e).__name__]. *)
Definition exception_class (e : exception) : String.string :=
  match e with
  | QuaternionError _ => "QuaternionError"%string
  | ValueError => "ValueError"%string
  | TypeError => "TypeError"%string
  end.

Inductive result (A : Type) : Type :=
| Ok (a : A)
| Raise (e : exception).
Arguments Ok {A} a.
Arguments Raise {A} e.

Definition bind {A B : Type} (r : result A) (k : A -> result B) : result B :=
  match r with
  | Ok a => k a
  | Raise e => Raise e
  end.

Definition fmap {A B : Type} (f : A -> B) (r : result A) : result B :=
  bind r (fun a => Ok (f a)).

Notation "x <- r ;; k" := (bind r (fun x => k))
  (at level 61, r at next level, right associativity).

(** [list(map(f, xs))]: the calls are made left to right, the first
    exception stops the traversal. *)
Fixpoint map_result {A B : Type} (f : A -> result B) (xs : list A) : result (list B) :=
  match xs with
  | [] => Ok []
  | x :: xs' => y <- f x ;; ys <- map_result f xs' ;; Ok (y :: ys)
  end.

(** [functools.reduce(f, xs, init)]. *)
Fixpoint reduce {A B : Type} (f : A -> B -> result A) (xs : list B) (init : A) : result A :=
  match xs with
  | [] => Ok init
  | x :: xs' => acc <- f init x ;; reduce f xs' acc
  end.

(** ** The fragment of numpy the class uses *)
Module np.

(** [np.linalg.norm] of a one-dimensional array. *)
Definition sum_squares (v : list R) : R :=
  fold_right (fun x acc => x * x + acc) 0 v.

Definition norm (v : list R) : R := sqrt (sum_squares v).

(** A two-dimensional array of shape [(r, c)]. *)
Record matrix (r c : nat) : Type := mk_matrix { entry : nat -> nat -> R }.
Arguments mk_matrix {r c} entry.
Arguments entry {r c} m i j.

(** [np.array([[...], ...])] from nested lists. *)
Definition array {r c : nat} (rows : list (list R)) : matrix r c :=
  mk_matrix (fun i j => nth j (nth i rows []) 0).

(** Sum of [f 0 + ... + f (n-1)]. *)
Definition sum_n (n : nat) (f : nat -> R) : R :=
  fold_right (fun k acc => f k + acc) 0 (seq 0 n).

(** [m.dot(v)] for a one-dimensional [v]. *)
Definition dot_vec {r c : nat} (m : matrix r c) (v : list R) : list R :=
  map (fun i => sum_n c (fun j => entry m i j * nth j v 0)) (seq 0 r).

(** [a.dot(b)] for two-dimensional arrays. *)
Definition dot {r k c : nat} (a : matrix r k) (b : matrix k c) : matrix r c :=
  mk_matrix (fun i j => sum_n k (fun l => entry a i l * entry b l j)).

(** [np.diag(w)] of a one-dimensional array of length [n]. *)
Definition diag {n : nat} (w : list R) : matrix n n :=
  mk_matrix (fun i j => if Nat.eqb i j then nth i w 0 else 0).

(** [a.T]. *)
Definition T {r c : nat} (a : matrix r c) : matrix c r :=
  mk_matrix (fun i j => entry a j i).

Definition trace {n : nat} (a : matrix n n) : R :=
  sum_n n (fun i => entry a i i).

(** [a.diagonal()]. *)
Definition diagonal {n : nat} (a : matrix n n) : list R :=
  map (fun i => entry a i i) (seq 0 n).

Definition add {r c : nat} (a b : matrix r c) : matrix r c :=
  mk_matrix (fun i j => entry a i j + entry b i j).

Definition sub {r c : nat} (a b : matrix r c) : matrix r c :=
  mk_matrix (fun i j => entry a i j - entry b i j).

(** [s * a]. *)
Definition scale {r c : nat} (s : R) (a : matrix r c) : matrix r c :=
  mk_matrix (fun i j => s * entry a i j).

Definition identity (n : nat) : matrix n n :=
  mk_matrix (fun i j => if Nat.eqb i j then 1 else 0).

Definition zeros (r c : nat) : matrix r c :=
  mk_matrix (fun _ _ => 0).

(** [a[i, j] = x]: writes inside the shape only. *)
Definition set {r c : nat} (a : matrix r c) (i j : nat) (x : R) : matrix r c :=
  mk_matrix (fun i' j' =>
    if Nat.eqb i' i && Nat.eqb j' j then x else entry a i' j').

(** [a[idx] = vals] for a list of index pairs, as [np.triu_indices] gives. *)
Fixpoint set_at {r c : nat} (a : matrix r c) (idx : list (nat * nat)) (vals : list R)
  : matrix r c :=
  match idx, vals with
  | (i, j) :: idx', x :: vals' => set_at (set a i j x) idx' vals'
  | _, _ => a
  end.

(** [a[idx] = x] for a list of index pairs and one value. *)
Fixpoint fill_at {r c : nat} (a : matrix r c) (idx : list (nat * nat)) (x : R)
  : matrix r c :=
  match idx with
  | (i, j) :: idx' => fill_at (set a i j x) idx' x
  | [] => a
  end.

(** [np.triu_indices(n, k)]: the pairs [(i, j)] with [i + k <= j < n], row by row. *)
Definition triu_indices (n k : nat) : list (nat * nat) :=
  flat_map (fun i => map (fun j => (i, j)) (seq (i + k) (n - (i + k)))) (seq 0 n).

(** [np.diag_indices(n)]. *)
Definition diag_indices (n : nat) : list (nat * nat) :=
  map (fun i => (i, i)) (seq 0 n).

(** [a[i] = vals]: a whole row. *)
Definition set_row {r c : nat} (a : matrix r c) (i : nat) (vals : list R) : matrix r c :=
  mk_matrix (fun i' j' => if Nat.eqb i' i then nth j' vals 0 else entry a i' j').

(** [a[i0:i0+len(vals), j] = vals]: a slice of a column. *)
Definition set_column_slice {r c : nat} (a : matrix r c) (i0 j : nat) (vals : list R)
  : matrix r c :=
  mk_matrix (fun i' j' =>
    if Nat.eqb j' j && Nat.leb i0 i' && Nat.ltb i' (i0 + List.length vals)
    then nth (i' - i0) vals 0 else entry a i' j').

(** [a[i0:i0+r', j0:j0+c'] = b]: a rectangular block. *)
Definition set_block {r c r' c' : nat} (a : matrix r c) (i0 j0 : nat) (b : matrix r' c')
  : matrix r c :=
  mk_matrix (fun i' j' =>
    if Nat.leb i0 i' && Nat.ltb i' (i0 + r') && Nat.leb j0 j' && Nat.ltb j' (j0 + c')
    then entry b (i' - i0) (j' - j0) else entry a i' j').

(** All rows of an array, as nested lists. *)
Definition rows {r c : nat} (a : matrix r c) : list (list R) :=
  map (fun i => map (fun j => entry a i j) (seq 0 c)) (seq 0 r).

(** [a[i]]: one row, as a one-dimensional array. *)
Definition row {r c : nat} (a : matrix r c) (i : nat) : list R :=
  map (fun j => entry a i j) (seq 0 c).

(** [a[:, j]]: one column. *)
Definition column {r c : nat} (a : matrix r c) (j : nat) : list R :=
  map (fun i => entry a i j) (seq 0 r).

(** [np.sign]. *)
Definition sign (x : R) : R :=
  if Rlt_dec x 0 then -1 else if Rlt_dec 0 x then 1 else 0.

(** [v.clip(lo, None)]. *)
Definition clip_min (lo : R) (v : list R) : list R := map (Rmax lo) v.

(** [v.argmax()]: the first index holding the maximum. *)
Fixpoint argmax_from (v : list R) (i best_i : nat) (best : R) : nat :=
  match v with
  | [] => best_i
  | x :: v' =>
      if Rlt_dec best x then argmax_from v' (S i) i x
      else argmax_from v' (S i) best_i best
  end.

Definition argmax (v : list R) : nat :=
  match v with
  | [] => 0%nat
  | x :: v' => argmax_from v' 1 0 x
  end.

(** Elementwise product of two one-dimensional arrays of equal length. *)
Fixpoint multiply (u v : list R) : list R :=
  match u, v with
  | x :: u', y :: v' => x * y :: multiply u' v'
  | _, _ => []
  end.

(** [np.arctan2(y, x)] on real arguments.  Where the first argument can be a
    negative zero left of the origin, [arctan2_signed] below is used. *)
Definition arctan2 (y x : R) : R :=
  if Rlt_dec 0 x then atan (y / x)
  else if Rlt_dec x 0 then
    (if Rle_dec 0 y then atan (y / x) + PI else atan (y / x) - PI)
  else if Rlt_dec 0 y then PI / 2
  else if Rlt_dec y 0 then - (PI / 2)
  else 0.

(** [np.arctan2(y, x)] when [y] may be the negative zero of binary64, which
    the real numbers cannot tell from zero: [negative_zero] says that a first
    argument equal to zero carries the negative sign.  Left of the origin
    numpy then returns -pi where it returns pi for the positive zero;
    elsewhere the two zeros give the same real number. *)
Definition arctan2_signed (negative_zero : bool) (y x : R) : R :=
  if negative_zero then
    if Req_dec_T y 0 then
      if Rlt_dec x 0 then - PI else arctan2 y x
    else arctan2 y x
  else arctan2 y x.

(** [np.rad2deg]. *)
Definition rad2deg (x : R) : R := x * 180 / PI.

(** [np.ones(n)]. *)
Definition ones (n : nat) : list R := repeat 1 n.

(** [u.dot(v)] for two one-dimensional arrays of equal length. *)
Fixpoint vdot (u v : list R) : R :=
  match u, v with
  | x :: u', y :: v' => x * y + vdot u' v'
  | _, _ => 0
  end.

End np.

(** ** The base algebra *)
Module GeneralQuaternion.

(** Modelled from the spec: the class [GeneralQuaternion] of
    [quaternions/general_quaternion.py] is not among the sources.  The
    spec describes it as an unrestricted four-component value with
    coordinate access, the standard quaternion-algebra operations, a
    Euclidean coordinate distance and a tolerance-bounded coordinate
    equality. *)
Record t : Type := make { qr : R; qi : R; qj : R; qk : R }.

(** Modelled from the spec: [coordinates], the ordered 4-tuple accessor. *)
Definition coordinates (q : t) : list R := [qr q; qi q; qj q; qk q].

(** Modelled from the spec: unary negation of the base algebra. *)
Definition __neg__ (q : t) : t := make (- qr q) (- qi q) (- qj q) (- qk q).

(** Modelled from the spec: subtraction, the addition of the negation. *)
Definition __sub__ (p q : t) : t :=
  make (qr p - qr q) (qi p - qi q) (qj p - qj q) (qk p - qk q).

(** Modelled from the spec: the quaternion-quaternion product of the base
    algebra (the standard Hamilton product). *)
Definition __mul__ (p q : t) : t :=
  make (qr p * qr q - qi p * qi q - qj p * qj q - qk p * qk q)
       (qr p * qi q + qi p * qr q + qj p * qk q - qk p * qj q)
       (qr p * qj q - qi p * qk q + qj p * qr q + qk p * qi q)
       (qr p * qk q + qi p * qj q - qj p * qi q + qk p * qr q).

(** Modelled from the spec: the quaternion-scalar product of the base algebra. *)
Definition scalar_mul (q : t) (s : R) : t :=
  make (qr q * s) (qi q * s) (qj q * s) (qk q * s).

(** Modelled from the spec: the Euclidean norm of the coordinates. *)
Definition norm (q : t) : R := np.norm (coordinates q).

(** Modelled from the spec: [euclidean_distance], the coordinate-space
    Euclidean distance. *)
Definition euclidean_distance (p q : t) : R := norm (__sub__ p q).

(** Modelled from the spec: [is_equal], the tolerance-bounded coordinate
    equality without sign folding. *)
Definition is_equal (p q : t) (tolerance : R) : bool :=
  if Rlt_dec (euclidean_distance p q) tolerance then true else false.

End GeneralQuaternion.

(** ** The class [Quaternion] *)
Module Quaternion.

(** An instance of [Quaternion]: the inherited four coordinates. *)
Record t : Type := instance { super : GeneralQuaternion.t }.

Definition qr (q : t) : R := GeneralQuaternion.qr (super q).
Definition qi (q : t) : R := GeneralQuaternion.qi (super q).
Definition qj (q : t) : R := GeneralQuaternion.qj (super q).
Definition qk (q : t) : R := GeneralQuaternion.qk (super q).

Definition coordinates (q : t) : list R := GeneralQuaternion.coordinates (super q).

(** The values a right operand of [*] can be, by the tests [__mul__] makes. *)
Inductive operand : Type :=
| a_quaternion (p : t)                        (* isinstance(p, Quaternion) *)
| a_number (s : R)                            (* isinstance(p, numbers.Number) *)
| a_general_quaternion (p : GeneralQuaternion.t)
| an_iterable (v : list R)                    (* isinstance(p, Iterable), with len(p) *)
| an_unsized_iterable                         (* isinstance(p, Iterable), without len(p):
                                                 a generator, a 0-d array *)
| another_object.                             (* none of the above *)

(** Modelled from the spec: [unit()], the identity quaternion (1,0,0,0). *)
Definition unit : t := instance (GeneralQuaternion.make 1 0 0 0).

(** Modelled from the spec: the inherited unary negation on a [Quaternion],
    coordinate by coordinate; the class of the operand is kept. *)
Definition __neg__ (q : t) : t := instance (GeneralQuaternion.__neg__ (super q)).

(** The unit-norm invariant of the class. *)
Definition is_unitary (q : t) : Prop := GeneralQuaternion.norm (super q) = 1.

Section WithTolerance.

(** [DEFAULT_TOLERANCE] is imported from [general_quaternion]; its value is
    not among the sources, so it is a parameter of the development. *)
Variable DEFAULT_TOLERANCE : R.

Definition __init__ (qr qi qj qk : R) : result t :=
  let q := [qr; qi; qj; qk] in
  let norm := np.norm q in
  if Rlt_dec norm DEFAULT_TOLERANCE then
    Raise (QuaternionError (unstable_quaternion q))
  else
    Ok (instance (GeneralQuaternion.make (qr / norm) (qi / norm) (qj / norm) (qk / norm))).

(** The constructor applied to the unpacked coordinates of [g]. *)
Definition of_coordinates (g : GeneralQuaternion.t) : result t :=
  __init__ (GeneralQuaternion.qr g) (GeneralQuaternion.qi g)
           (GeneralQuaternion.qj g) (GeneralQuaternion.qk g).

Definition matrix (self : t) : np.matrix 3 3 :=
  let qr := qr self in let qi := qi self in
  let qj := qj self in let qk := qk self in
  np.array
    [[qr * qr + qi * qi - qj * qj - qk * qk;
      2 * (qi * qj + qr * qk);
      2 * (qi * qk - qr * qj)];
     [2 * (qi * qj - qr * qk);
      qr * qr - qi * qi + qj * qj - qk * qk;
      2 * (qj * qk + qr * qi)];
     [2 * (qi * qk + qr * qj);
      2 * (qj * qk - qr * qi);
      qr * qr - qi * qi - qj * qj + qk * qk]].

(** The function call [Quaternion( *coords)] on a one-dimensional array. *)
Definition of_array (coords : list R) : result t :=
  match coords with
  | [qr; qi; qj; qk] => __init__ qr qi qj qk
  | _ => Raise TypeError
  end.

(** The branch of [__mul__] taken for an operand that is a [Quaternion]. *)
Definition mul_quaternion (self p : t) : result t :=
  let mul := GeneralQuaternion.__mul__ (super self) (super p) in
  of_coordinates mul.

Definition __mul__ (self : t) (p : operand) : result operand :=
  match p with
  | a_quaternion p' => fmap a_quaternion (mul_quaternion self p')
  | a_number s =>
      let mul := GeneralQuaternion.scalar_mul (super self) s in
      fmap a_quaternion (of_coordinates mul)
  | a_general_quaternion g =>
      Ok (a_general_quaternion (GeneralQuaternion.__mul__ (super self) g))
  | an_iterable v =>
      if Nat.eqb (length v) 3 then Ok (an_iterable (np.dot_vec (matrix self) v))
      else Raise (QuaternionError cant_multiply_by)
  | an_unsized_iterable => Raise TypeError   (* raised by len(p) *)
  | another_object => Raise (QuaternionError cant_multiply_by)
  end.

Definition __call__ (self : t) (p : operand) : result operand := __mul__ self p.

Definition is_equal (self other : t) (tolerance : R) : bool :=
  GeneralQuaternion.is_equal (super self) (super other) tolerance
  || GeneralQuaternion.is_equal (super self) (super (__neg__ other)) tolerance.

(** [__eq__]: [is_equal] at its default tolerance. *)
Definition __eq__ (self other : t) : bool := is_equal self other DEFAULT_TOLERANCE.

Definition log (self : t) : GeneralQuaternion.t :=
  let norm := GeneralQuaternion.norm (super self) in
  let imag := map (fun x => x / norm) [qi self; qj self; qk self] in
  let imag_norm := np.norm imag in
  if Req_dec_T imag_norm 0 then
    let i_part := if Rlt_dec 0 (qr self) then 0 else PI in
    GeneralQuaternion.make (ln norm) i_part 0 0
  else
    let angle := np.arctan2 imag_norm (qr self / norm) in
    let v := map (fun x => x / imag_norm * angle) imag in
    GeneralQuaternion.make (ln norm) (nth 0 v 0) (nth 1 v 0) (nth 2 v 0).

Definition distance (self other : t) : R :=
  Rmin (GeneralQuaternion.euclidean_distance (super self) (super other))
       (GeneralQuaternion.euclidean_distance (super self) (super (__neg__ other))).

(** The loop over the coordinates; falling off its end returns [None]. *)
Fixpoint positive_representant_loop (self : t) (coords : list R) : option t :=
  match coords with
  | [] => None
  | coord :: rest =>
      if Rlt_dec 0 coord then Some self
      else if Rlt_dec coord 0 then Some (__neg__ self)
      else positive_representant_loop self rest
  end.

Definition positive_representant (self : t) : option t :=
  positive_representant_loop self (coordinates self).

(** [(2 * self.log()).coordinates[1:]]. *)
Definition rotation_vector (self : t) : list R :=
  tl (GeneralQuaternion.coordinates (GeneralQuaternion.scalar_mul (log self) 2)).

(** [np.linalg.eigh] is numpy's symmetric eigensolver, outside the
    sources; it returns the eigenvalues and the matrix whose columns are
    the eigenvectors. *)
Variable eigh : np.matrix 4 4 -> list R * np.matrix 4 4.

Definition _first_eigenvector (matrix : np.matrix 4 4) : result t :=
  let '(vals, vecs) := eigh matrix in
  let q := np.column vecs 3 in
  let q := if Rlt_dec (nth 0 q 0) 0 then map Ropp q else q in
  of_array q.

(** The squared magnitudes computed by [from_matrix], after clipping. *)
Definition from_matrix_qsquare (mat : np.matrix 3 3) : list R :=
  let tr := np.trace mat in
  let d := map (fun x => 1 + 2 * x - tr) (np.diagonal mat) in
  let qsquare := map (fun x => 1 / 4 * x) [1 + tr; nth 0 d 0; nth 1 d 0; nth 2 d 0] in
  np.clip_min 0 qsquare.

(** The matrix of signs computed by [from_matrix]. *)
Definition from_matrix_signs_m (mat : np.matrix 3 3) : np.matrix 4 4 :=
  let signs :=
    map np.sign
      [np.entry mat 1 2 - np.entry mat 2 1; np.entry mat 2 0 - np.entry mat 0 2;
       np.entry mat 0 1 - np.entry mat 1 0; np.entry mat 0 1 + np.entry mat 1 0;
       np.entry mat 2 0 + np.entry mat 0 2; np.entry mat 1 2 + np.entry mat 2 1] in
  let signs_m := np.zeros 4 4 in
  let signs_m := np.set_at signs_m (np.triu_indices 4 1) signs in
  let signs_m := np.add signs_m (np.T signs_m) in
  np.fill_at signs_m (np.diag_indices 4) 1.

Definition from_matrix (mat : np.matrix 3 3) : result t :=
  let qsquare := from_matrix_qsquare mat in
  let signs_m := from_matrix_signs_m mat in
  let max_idx := np.argmax qsquare in
  let coords := np.multiply (map sqrt qsquare) (np.row signs_m max_idx) in
  of_array coords.

(** [Quaternion.exp] is inherited from the base algebra and outside the
    sources; the spec leaves its value at the zero vector open, so it is
    a parameter: a function from a 4-vector to a [Quaternion] that may
    raise. *)
Variable exp : list R -> result t.

Definition from_rotation_vector (xyz : R * R * R) : result t :=
  let '(x, y, z) := xyz in
  let a := 1 / 2 * x in let b := 1 / 2 * y in let c := 1 / 2 * z in
  exp [0; a; b; c].

(** The 4x4 matrix that [from_qmethod] hands to [_first_eigenvector]. *)
Definition from_qmethod_K (B : np.matrix 3 3) : np.matrix 4 4 :=
  let sigma := np.trace B in
  let S := np.add B (np.T B) in
  let Z := np.sub B (np.T B) in
  let i := np.entry Z 2 1 in
  let j := np.entry Z 0 2 in
  let k := np.entry Z 1 0 in
  let K := np.zeros 4 4 in
  let K := np.set_row K 0 [sigma; i; j; k] in
  let K := np.set_column_slice K 1 0 [i; j; k] in
  np.set_block K 1 1 (np.sub S (np.scale sigma (np.identity 3))).

(** The matrix [B] of [from_qmethod]; [np.diag] of weights whose number
    is not the number of observations makes [dot] raise. *)
Definition from_qmethod_B {n : nat} (source target : np.matrix 3 n)
    (probabilities : option (list R)) : result (np.matrix 3 3) :=
  match probabilities with
  | Some w =>
      if Nat.eqb (List.length w) n
      then Ok (np.dot (np.dot source (np.diag w)) (np.T target))
      else Raise ValueError
  | None => Ok (np.dot source (np.T target))
  end.

Definition from_qmethod {n : nat} (source target : np.matrix 3 n)
    (probabilities : option (list R)) : result t :=
  B <- from_qmethod_B source target probabilities ;;
  _first_eigenvector (from_qmethod_K B).

Definition integrate_from_velocity_vectors (vectors : list (R * R * R))
  : result (list R) :=
  qs <- map_result from_rotation_vector vectors ;;
  let qs := rev qs in
  prod <- reduce mul_quaternion qs unit ;;
  Ok (rotation_vector prod).

(** The 4x4 matrix that [average] hands to [_first_eigenvector]. *)
Definition average_matrix (quaternions : list t) (weights : list R) : np.matrix 4 4 :=
  let n := List.length quaternions in
  let b : np.matrix n 4 := np.array (map coordinates quaternions) in
  np.dot (np.dot (np.T b) (np.diag weights)) b.

(** [np.diag] of weights whose number is not the number of quaternions makes
    [dot] raise.  With no quaternion at all numpy's arrays lose their second
    dimension; the statements about [average] assume at least one. *)
Definition average (quaternions : list t) (weights : option (list R)) : result t :=
  let n := List.length quaternions in
  let weights :=
    match weights with
    | None => np.ones n
    | Some w => w
    end in
  if Nat.eqb (List.length weights) n then
    _first_eigenvector (average_matrix quaternions weights)
  else Raise ValueError.

Definition basis (self : t) : list R * list R * list R :=
  let m := matrix self in
  (np.row m 0, np.row m 1, np.row m 2).

(** Where the rotation vector is zero numpy divides zero by zero and yields
    nan entries; the statements about [rotation_axis] assume a rotation
    vector of nonzero norm. *)
Definition rotation_axis (self : t) : list R :=
  let v := rotation_vector self in
  map (fun x => x / np.norm v) v.

Definition rotation_angle (self : t) : R :=
  np.norm (rotation_vector self).

(** The two booleans stand for what real arithmetic does not determine:
    whether the first argument of [arctan2], when it is zero, is the negative
    zero.  [-m[0][1]] and [-m[1][2]] are negative zeros whenever the matrix
    entry is a positive zero.  The second arguments are never negative
    zeros, and for the declination the second argument is a square root, to
    the right of the origin, where the sign of a zero does not show. *)
Definition ra_dec_roll (negative_zero_ra negative_zero_roll : bool) (self : t) : list R :=
  let m := matrix self in
  let ra_rad := np.arctan2_signed negative_zero_ra (- np.entry m 0 1) (np.entry m 0 0) in
  let dec_rad :=
    np.arctan2 (np.entry m 0 2) (sqrt (np.entry m 1 2 ^ 2 + np.entry m 2 2 ^ 2)) in
  let roll_rad := np.arctan2_signed negative_zero_roll (- np.entry m 1 2) (np.entry m 2 2) in
  map np.rad2deg [ra_rad; dec_rad; roll_rad].

Definition OpticalAxisFirst : result t :=
  __init__ (1 / 2) (1 / 2) (- (1 / 2)) (1 / 2).

Definition astrometry_ra_dec_roll (negative_zero_ra negative_zero_roll : bool) (self : t)
  : result (list R) :=
  optical_axis_first <- OpticalAxisFirst ;;
  twisted <- mul_quaternion optical_axis_first self ;;
  match ra_dec_roll negative_zero_ra negative_zero_roll twisted with
  | [ra; dec; roll] => Ok [- ra; dec; roll - 180]
  | _ => Raise ValueError
  end.

End WithTolerance.



(** The matrix [B] in the spec's words: the weighted sum over the
    observations of the products of a source and a target coordinate. *)
Definition weighted_cross_covariance {n : nat} (source target : np.matrix 3 n)
    (w : nat -> R) (a b : nat) : R :=
  np.sum_n n (fun i => np.entry source a i * w i * np.entry target b i).

(** The matrix [K] in the spec's words, [[sigma, z^t], [z, S - sigma I]],
    row by row. *)
Definition davenport_K (B : np.matrix 3 3) : list (list R) :=
  let sigma := np.entry B 0 0 + np.entry B 1 1 + np.entry B 2 2 in
  let z0 := np.entry B 2 1 - np.entry B 1 2 in
  let z1 := np.entry B 0 2 - np.entry B 2 0 in
  let z2 := np.entry B 1 0 - np.entry B 0 1 in
  [[sigma; z0; z1; z2];
   [z0; np.entry B 0 0 + np.entry B 0 0 - sigma;
        np.entry B 0 1 + np.entry B 1 0;
        np.entry B 0 2 + np.entry B 2 0];
   [z1; np.entry B 1 0 + np.entry B 0 1;
        np.entry B 1 1 + np.entry B 1 1 - sigma;
        np.entry B 1 2 + np.entry B 2 1];
   [z2; np.entry B 2 0 + np.entry B 0 2;
        np.entry B 2 1 + np.entry B 1 2;
        np.entry B 2 2 + np.entry B 2 2 - sigma]].

(** The weight of observation [i]: one when no weights are given. *)
Definition weight (probabilities : option (list R)) (i : nat) : R :=
  match probabilities with
  | Some w => nth i w 0
  | None => 1
  end.

(** The weights, when given, are as many as the observations. *)
Definition weights_fit (n : nat) (probabilities : option (list R)) : Prop :=
  match probabilities with
  | Some w => List.length w = n
  | None => True
  end.

(** What numpy documents of [eigh] on a symmetric matrix: the eigenvalues
    come in ascending order, and column [i] of the second result is a
    normalized eigenvector for eigenvalue [i]. *)
Definition eigh_contract (K : np.matrix 4 4) (vals : list R) (vecs : np.matrix 4 4)
  : Prop :=
  List.length vals = 4%nat
  /\ (forall i j, (i <= j < 4)%nat -> nth i vals 0 <= nth j vals 0)
  /\ (forall i, (i < 4)%nat ->
        np.norm (np.column vecs i) = 1
        /\ np.dot_vec K (np.column vecs i)
           = map (Rmult (nth i vals 0)) (np.column vecs i)).

(** The eigenvectors [eigh] returns for a symmetric matrix are orthonormal:
    the matrix of eigenvectors times its transpose is the identity. *)
Definition eigh_orthogonal (vecs : np.matrix 4 4) : Prop :=
  np.rows (np.dot vecs (np.T vecs)) = np.rows (np.identity 4).

(** An instance of the parameter [eigh]: the eigendecomposition of the
    diagonal matrix diag(2, 0, 0, 0), eigenvalues in ascending order. *)
Definition eigh_of_diag_2_0_0_0 (_ : np.matrix 4 4) : list R * np.matrix 4 4 :=
  ([0; 0; 0; 2],
   np.array [[0; 0; 0; 1]; [1; 0; 0; 0]; [0; 1; 0; 0]; [0; 0; 1; 0]]).

(** An instance of the parameter [eigh]: the eigendecomposition of the
    diagonal matrix diag(3, -1, -1, -1), eigenvalues in ascending order. *)
Definition eigh_of_diag_3_m1_m1_m1 (_ : np.matrix 4 4) : list R * np.matrix 4 4 :=
  ([-1; -1; -1; 3],
   np.array [[0; 0; 0; 1]; [1; 0; 0; 0]; [0; 1; 0; 0]; [0; 0; 1; 0]]).

(** The operands that reach the last branch of [__mul__]: those that are
    neither a quaternion, nor a number, nor an iterable, and the iterables
    whose length is not three.  An iterable without a length never gets
    there: [len(p)] raises first. *)
Definition unsupported (p : operand) : Prop :=
  match p with
  | an_iterable v => length v <> 3%nat
  | another_object => True
  | _ => False
  end.

(** The first nonzero entry of a list of coordinates, scanned in order. *)
Fixpoint first_nonzero (coords : list R) : option R :=
  match coords with
  | [] => None
  | coord :: rest => if Req_dec_T coord 0 then first_nonzero rest else Some coord
  end.

End Quaternion.

(** ** The round trip through the rotation matrix in binary64

    The same code on the floating-point numbers of the program: the
    constructor, [matrix], [from_matrix] and [is_equal], with every operation
    rounded as in IEEE 754 binary64.  It serves to run the round trip on a
    concrete quaternion. *)
Module Binary64.

Import PrimFloat.
Local Open Scope float_scope.

(** [np.linalg.norm] of a one-dimensional array: the square root of the sum
    of the squares. *)
Definition norm (v : list float) : float :=
  sqrt (fold_left (fun acc x => acc + x * x) v 0).

(** An instance of [Quaternion]. *)
Record t : Type := instance { qr : float; qi : float; qj : float; qk : float }.

Definition coordinates (q : t) : list float := [qr q; qi q; qj q; qk q].

(** [None] stands for the [QuaternionError] raised on an unstable input. *)
Definition __init__ (DEFAULT_TOLERANCE qr qi qj qk : float) : option t :=
  let q := [qr; qi; qj; qk] in
  let norm := norm q in
  if norm <? DEFAULT_TOLERANCE then None
  else Some (instance (qr / norm) (qi / norm) (qj / norm) (qk / norm)).

Definition of_array (DEFAULT_TOLERANCE : float) (coords : list float) : option t :=
  match coords with
  | [qr; qi; qj; qk] => __init__ DEFAULT_TOLERANCE qr qi qj qk
  | _ => None
  end.

(** Modelled from the spec: the unary negation of the base algebra. *)
Definition __neg__ (q : t) : t := instance (- qr q) (- qi q) (- qj q) (- qk q).

(** Modelled from the spec: [is_equal] of the base algebra, the Euclidean
    norm of the coordinate difference below the tolerance. *)
Definition general_is_equal (p q : t) (tolerance : float) : bool :=
  norm [qr p - qr q; qi p - qi q; qj p - qj q; qk p - qk q] <? tolerance.

Definition is_equal (self other : t) (tolerance : float) : bool :=
  general_is_equal self other tolerance
  || general_is_equal self (__neg__ other) tolerance.

(** A two-dimensional array, by its entries. *)
Definition array (rows : list (list float)) : nat -> nat -> float :=
  fun i j => nth j (nth i rows []) 0.

Definition matrix (self : t) : nat -> nat -> float :=
  let qr := qr self in let qi := qi self in
  let qj := qj self in let qk := qk self in
  array
    [[qr * qr + qi * qi - qj * qj - qk * qk;
      2 * (qi * qj + qr * qk);
      2 * (qi * qk - qr * qj)];
     [2 * (qi * qj - qr * qk);
      qr * qr - qi * qi + qj * qj - qk * qk;
      2 * (qj * qk + qr * qi)];
     [2 * (qi * qk + qr * qj);
      2 * (qj * qk - qr * qi);
      qr * qr - qi * qi - qj * qj + qk * qk]].

(** [a[i, j]]. *)
Definition entry (a : nat -> nat -> float) (i j : nat) : float := a i j.

(** [a.diagonal()] and [np.trace(a)] of a 3x3 array. *)
Definition diagonal (a : nat -> nat -> float) : list float :=
  map (fun i => a i i) (seq 0 3).

Definition trace (a : nat -> nat -> float) : float :=
  fold_left (fun acc x => acc + x) (diagonal a) 0.

(** [np.sign]. *)
Definition sign (x : float) : float :=
  if x <? 0 then -1 else if 0 <? x then 1 else 0.

(** [v.clip(lo, None)]. *)
Definition clip_min (lo : float) (v : list float) : list float :=
  map (fun x => if x <? lo then lo else x) v.

(** [v.argmax()]: the first index holding the maximum. *)
Fixpoint argmax_from (v : list float) (i best_i : nat) (best : float) : nat :=
  match v with
  | [] => best_i
  | x :: v' =>
      if best <? x then argmax_from v' (S i) i x
      else argmax_from v' (S i) best_i best
  end.

Definition argmax (v : list float) : nat :=
  match v with
  | [] => 0%nat
  | x :: v' => argmax_from v' 1 0 x
  end.

(** Elementwise product of two one-dimensional arrays of equal length. *)
Fixpoint multiply (u v : list float) : list float :=
  match u, v with
  | x :: u', y :: v' => x * y :: multiply u' v'
  | _, _ => []
  end.

(** [a[i, j] = x]. *)
Definition set (a : nat -> nat -> float) (i j : nat) (x : float) : nat -> nat -> float :=
  fun i' j' => if Nat.eqb i' i && Nat.eqb j' j then x else a i' j'.

(** [a[idx] = vals] and [a[idx] = x] for a list of index pairs. *)
Fixpoint set_at (a : nat -> nat -> float) (idx : list (nat * nat)) (vals : list float)
  : nat -> nat -> float :=
  match idx, vals with
  | (i, j) :: idx', x :: vals' => set_at (set a i j x) idx' vals'
  | _, _ => a
  end.

Fixpoint fill_at (a : nat -> nat -> float) (idx : list (nat * nat)) (x : float)
  : nat -> nat -> float :=
  match idx with
  | (i, j) :: idx' => fill_at (set a i j x) idx' x
  | [] => a
  end.

Definition from_matrix (DEFAULT_TOLERANCE : float) (mat : nat -> nat -> float) : option t :=
  let tr := trace mat in
  let d := map (fun x => 1 + 2 * x - tr) (diagonal mat) in
  let qsquare := map (fun x => 1 / 4 * x) [1 + tr; nth 0 d 0; nth 1 d 0; nth 2 d 0] in
  let qsquare := clip_min 0 qsquare in
  let signs :=
    map sign
      [entry mat 1 2 - entry mat 2 1; entry mat 2 0 - entry mat 0 2;
       entry mat 0 1 - entry mat 1 0; entry mat 0 1 + entry mat 1 0;
       entry mat 2 0 + entry mat 0 2; entry mat 1 2 + entry mat 2 1] in
  let signs_m : nat -> nat -> float := fun _ _ => 0 in
  let signs_m := set_at signs_m (np.triu_indices 4 1) signs in
  let signs_m : nat -> nat -> float := fun i j => signs_m i j + signs_m j i in
  let signs_m := fill_at signs_m (np.diag_indices 4) 1 in
  let max_idx := argmax qsquare in
  let coords := multiply (map sqrt qsquare) (map (signs_m max_idx) (seq 0 4)) in
  of_array DEFAULT_TOLERANCE coords.

End Binary64.

(** ** Proof automation *)

(** Unfolds the array operations on arrays of known shape. *)
Ltac np_unfold :=
  cbv [np.trace np.sum_n np.diagonal np.entry np.array np.clip_min np.zeros np.set
       np.set_at np.fill_at np.triu_indices np.diag_indices np.add np.sub np.T
       np.scale np.identity np.row np.column np.rows np.set_row np.set_column_slice
       np.set_block np.dot_vec np.multiply np.dot np.diag
       List.map List.seq List.nth List.fold_right List.flat_map List.app List.length
       Nat.eqb Nat.leb Nat.ltb Nat.add Nat.sub andb fst snd].

Ltac quaternion_unfold :=
  cbv [Quaternion.matrix Quaternion.qr Quaternion.qi Quaternion.qj Quaternion.qk
       Quaternion.super Quaternion.coordinates GeneralQuaternion.coordinates
       GeneralQuaternion.qr GeneralQuaternion.qi GeneralQuaternion.qj GeneralQuaternion.qk].

(** Splits an equation of (nested) lists into its entries. *)
Ltac entrywise := repeat apply (f_equal2 cons); try reflexivity.

(** Multiplies both sides of an equation by a factor. *)
Ltac scale_by k H := apply (f_equal (Rmult k)) in H.

(** Closes a polynomial equation that holds once the sum of the four squares
    is one: either an identity, or an identity after multiplying the
    right-hand side by that sum, once or twice. *)
Ltac unit_poly a b c d Hsum :=
  first
    [ ring
    | transitivity (a * a + b * b + c * c + d * d); [ring | rewrite Hsum; ring]
    | transitivity ((a * a + b * b + c * c + d * d) * (a * a + b * b + c * c + d * d));
      [ring | rewrite Hsum; ring] ].

(** ** Norms *)

Lemma sum_squares_nonneg (v : list R) : 0 <= np.sum_squares v.
Proof.
  induction v as [|x v IH]; simpl; [lra|].
  pose proof (Rle_0_sqr x) as Hx. unfold Rsqr in Hx. lra.
Qed.

Lemma norm_nonneg (v : list R) : 0 <= np.norm v.
Proof. apply sqrt_pos. Qed.

Lemma sqrt_sqr_abs (s : R) : sqrt (s * s) = Rabs s.
Proof. apply (sqrt_Rsqr_abs s). Qed.

Lemma norm_zero4 : np.norm [0; 0; 0; 0] = 0.
Proof.
  unfold np.norm; simpl.
  replace (0 * 0 + (0 * 0 + (0 * 0 + (0 * 0 + 0)))) with 0 by ring.
  apply sqrt_0.
Qed.

Lemma norm4_scale (a b c d s : R) :
  np.norm [a * s; b * s; c * s; d * s] = np.norm [a; b; c; d] * Rabs s.
Proof.
  unfold np.norm.
  replace (np.sum_squares [a * s; b * s; c * s; d * s])
    with (np.sum_squares [a; b; c; d] * (s * s)) by (simpl; ring).
  rewrite sqrt_mult.
  - now rewrite sqrt_sqr_abs.
  - apply sum_squares_nonneg.
  - pose proof (Rle_0_sqr s) as Hs. unfold Rsqr in Hs. lra.
Qed.

Lemma norm4_normalized (a b c d : R) :
  np.norm [a; b; c; d] <> 0 ->
  np.norm [a / np.norm [a; b; c; d]; b / np.norm [a; b; c; d];
           c / np.norm [a; b; c; d]; d / np.norm [a; b; c; d]] = 1.
Proof.
  intros Hn. set (n := np.norm [a; b; c; d]) in *.
  assert (0 < n) as Hpos by (pose proof (norm_nonneg [a; b; c; d]); fold n in H; lra).
  unfold Rdiv. rewrite norm4_scale. fold n.
  rewrite Rabs_right.
  - now field.
  - left. now apply Rinv_0_lt_compat.
Qed.

Lemma norm4_zero_inv (a b c d : R) :
  np.norm [a; b; c; d] = 0 -> a = 0 /\ b = 0 /\ c = 0 /\ d = 0.
Proof.
  unfold np.norm. intros H.
  apply sqrt_eq_0 in H; [|apply sum_squares_nonneg].
  simpl in H. repeat split; nra.
Qed.

Lemma norm_zero3 : np.norm [0; 0; 0] = 0.
Proof.
  unfold np.norm; simpl.
  replace (0 * 0 + (0 * 0 + (0 * 0 + 0))) with 0 by ring.
  apply sqrt_0.
Qed.

Lemma norm3_zero_inv (a b c : R) :
  np.norm [a; b; c] = 0 -> a = 0 /\ b = 0 /\ c = 0.
Proof.
  unfold np.norm. intros H.
  apply sqrt_eq_0 in H; [|apply sum_squares_nonneg].
  simpl in H. repeat split; nra.
Qed.

(** ** Construction *)

Lemma init_raises (tol qr qi qj qk : R) :
  np.norm [qr; qi; qj; qk] < tol ->
  Quaternion.__init__ tol qr qi qj qk
  = Raise (QuaternionError (unstable_quaternion [qr; qi; qj; qk])).
Proof.
  intros H. unfold Quaternion.__init__.
  destruct (Rlt_dec (np.norm [qr; qi; qj; qk]) tol); [reflexivity | contradiction].
Qed.

Lemma init_returns (tol qr qi qj qk : R) :
  tol <= np.norm [qr; qi; qj; qk] ->
  Quaternion.__init__ tol qr qi qj qk
  = Ok (Quaternion.instance
          (GeneralQuaternion.make
             (qr / np.norm [qr; qi; qj; qk]) (qi / np.norm [qr; qi; qj; qk])
             (qj / np.norm [qr; qi; qj; qk]) (qk / np.norm [qr; qi; qj; qk]))).
Proof.
  intros H. unfold Quaternion.__init__.
  destruct (Rlt_dec (np.norm [qr; qi; qj; qk]) tol); [lra | reflexivity].
Qed.

Lemma instance_ext (a b c d a' b' c' d' : R) :
  a = a' -> b = b' -> c = c' -> d = d' ->
  Quaternion.instance (GeneralQuaternion.make a b c d)
  = Quaternion.instance (GeneralQuaternion.make a' b' c' d').
Proof. intros -> -> -> ->. reflexivity. Qed.

(** On a tuple of norm one the constructor stores the tuple itself. *)
Lemma init_unit_norm (tol qr qi qj qk : R) :
  tol <= 1 ->
  np.norm [qr; qi; qj; qk] = 1 ->
  Quaternion.__init__ tol qr qi qj qk
  = Ok (Quaternion.instance (GeneralQuaternion.make qr qi qj qk)).
Proof.
  intros Htol Hn. rewrite init_returns by lra. rewrite Hn.
  f_equal. apply instance_ext; field.
Qed.

(** C2: the constructor raises the instability error exactly when the norm
    of the four inputs is below the threshold, and then returns nothing;
    otherwise it returns the inputs divided by their norm, a quaternion of
    coordinate norm one (hence within tolerance of one). *)
Theorem init_normalizes_or_raises (tol qr qi qj qk : R) (Htol : 0 < tol) :
  let n := np.norm [qr; qi; qj; qk] in
  (n < tol <-> exists e, Quaternion.__init__ tol qr qi qj qk = Raise e)
  /\ (n < tol ->
      Quaternion.__init__ tol qr qi qj qk
      = Raise (QuaternionError (unstable_quaternion [qr; qi; qj; qk])))
  /\ (tol <= n ->
      exists q,
        Quaternion.__init__ tol qr qi qj qk = Ok q
        /\ Quaternion.coordinates q = [qr / n; qi / n; qj / n; qk / n]
        /\ GeneralQuaternion.norm (Quaternion.super q) = 1
        /\ Rabs (GeneralQuaternion.norm (Quaternion.super q) - 1) < tol).
Proof.
  intros n. repeat split.
  - intros H. eexists. now apply init_raises.
  - intros [e He]. destruct (Rlt_dec n tol) as [Hlt | Hge]; [exact Hlt|].
    unfold n in Hge. rewrite init_returns in He by lra. discriminate.
  - apply init_raises.
  - intros Hge. eexists. split; [now apply init_returns|].
    assert (np.norm [qr; qi; qj; qk] <> 0) as Hnz by (unfold n in Hge; lra).
    pose proof (norm4_normalized qr qi qj qk Hnz) as H1.
    repeat split.
    + exact H1.
    + unfold GeneralQuaternion.norm, GeneralQuaternion.coordinates; simpl.
      rewrite H1. replace (1 - 1) with 0 by ring. now rewrite Rabs_R0.
Qed.

Lemma norm_3_0_0_4 : np.norm [3; 0; 0; 4] = 5.
Proof.
  unfold np.norm, np.sum_squares, fold_right.
  replace (3 * 3 + (0 * 0 + (0 * 0 + (4 * 4 + 0)))) with (5 * 5) by ring.
  apply sqrt_square. lra.
Qed.

Lemma init_normalizes_or_raises_witness :
  Quaternion.__init__ (1 / 100000000) 0 0 0 0
  = Raise (QuaternionError (unstable_quaternion [0; 0; 0; 0]))
  /\ exists q,
       Quaternion.__init__ (1 / 100000000) 3 0 0 4 = Ok q
       /\ Quaternion.coordinates q
          = [3 / np.norm [3; 0; 0; 4]; 0 / np.norm [3; 0; 0; 4];
             0 / np.norm [3; 0; 0; 4]; 4 / np.norm [3; 0; 0; 4]]
       /\ GeneralQuaternion.norm (Quaternion.super q) = 1.
Proof.
  assert (0 < 1 / 100000000) as Htol by lra.
  split.
  - pose proof (init_normalizes_or_raises (1 / 100000000) 0 0 0 0 Htol) as H.
    cbv zeta in H. destruct H as (_ & H & _). apply H.
    rewrite norm_zero4. exact Htol.
  - pose proof (init_normalizes_or_raises (1 / 100000000) 3 0 0 4 Htol) as H.
    cbv zeta in H. destruct H as (_ & _ & H).
    destruct H as (q & Hq & Hc & Hn & _); [rewrite norm_3_0_0_4; lra|].
    exists q. repeat split; assumption.
Defined.

(** ** Multiplication *)

Lemma is_unitary_norm (q : Quaternion.t) :
  Quaternion.is_unitary q ->
  np.norm [Quaternion.qr q; Quaternion.qi q; Quaternion.qj q; Quaternion.qk q] = 1.
Proof. intros H. exact H. Qed.

Lemma scalar_mul_norm (q : Quaternion.t) (s : R) :
  Quaternion.is_unitary q ->
  np.norm (GeneralQuaternion.coordinates
             (GeneralQuaternion.scalar_mul (Quaternion.super q) s)) = Rabs s.
Proof.
  intros Hq. unfold GeneralQuaternion.coordinates, GeneralQuaternion.scalar_mul; simpl.
  rewrite norm4_scale. apply is_unitary_norm in Hq.
  unfold Quaternion.qr, Quaternion.qi, Quaternion.qj, Quaternion.qk in Hq.
  rewrite Hq. ring.
Qed.

(** C10: a scalar of absolute value below the threshold makes [q * s]
    raise the instability error, because the scalar branch hands the product
    to the normalizing constructor; [s = 0] is such a scalar. *)
Theorem mul_small_scalar_raises (tol : R) (q : Quaternion.t) (s : R)
    (Hq : Quaternion.is_unitary q) (Hs : Rabs s < tol) :
  Quaternion.__mul__ tol q (Quaternion.a_number s)
  = Raise (QuaternionError
             (unstable_quaternion
                (GeneralQuaternion.coordinates
                   (GeneralQuaternion.scalar_mul (Quaternion.super q) s))))
  /\ Quaternion.__mul__ tol q (Quaternion.a_number 0)
     = Raise (QuaternionError
                (unstable_quaternion
                   (GeneralQuaternion.coordinates
                      (GeneralQuaternion.scalar_mul (Quaternion.super q) 0)))).
Proof.
  assert (forall s', Rabs s' < tol ->
    Quaternion.__mul__ tol q (Quaternion.a_number s')
    = Raise (QuaternionError
               (unstable_quaternion
                  (GeneralQuaternion.coordinates
                     (GeneralQuaternion.scalar_mul (Quaternion.super q) s'))))) as H.
  { intros s' Hs'. unfold Quaternion.__mul__, Quaternion.of_coordinates.
    rewrite init_raises; [reflexivity|].
    pose proof (scalar_mul_norm q s' Hq) as Hn.
    unfold GeneralQuaternion.coordinates in Hn. now rewrite Hn. }
  split.
  - now apply H.
  - apply H. rewrite Rabs_R0. pose proof (Rabs_pos s). lra.
Qed.

Lemma unit_is_unitary : Quaternion.is_unitary Quaternion.unit.
Proof.
  unfold Quaternion.is_unitary, GeneralQuaternion.norm, np.norm; simpl.
  replace (1 * 1 + (0 * 0 + (0 * 0 + (0 * 0 + 0)))) with 1 by ring.
  apply sqrt_1.
Qed.

Lemma mul_small_scalar_raises_witness :
  Quaternion.__mul__ (1 / 2) Quaternion.unit (Quaternion.a_number (1 / 4))
  = Raise (QuaternionError
             (unstable_quaternion
                (GeneralQuaternion.coordinates
                   (GeneralQuaternion.scalar_mul
                      (Quaternion.super Quaternion.unit) (1 / 4)))))
  /\ Quaternion.__mul__ (1 / 2) Quaternion.unit (Quaternion.a_number 0)
     = Raise (QuaternionError
                (unstable_quaternion
                   (GeneralQuaternion.coordinates
                      (GeneralQuaternion.scalar_mul
                         (Quaternion.super Quaternion.unit) 0)))).
Proof.
  apply (mul_small_scalar_raises (1 / 2) Quaternion.unit (1 / 4)).
  - exact unit_is_unitary.
  - rewrite Rabs_right; lra.
Defined.

Lemma quaternion_eta (q : Quaternion.t) :
  Quaternion.instance
    (GeneralQuaternion.make (Quaternion.qr q) (Quaternion.qi q)
                            (Quaternion.qj q) (Quaternion.qk q)) = q.
Proof. destruct q as [[a b c d]]. reflexivity. Qed.

(** The scalar branch on a scalar at or above the threshold: the product is
    divided by its norm [|s|] and wrapped as a [Quaternion]. *)
Lemma mul_scalar_returns (tol : R) (q : Quaternion.t) (s : R) :
  Quaternion.is_unitary q -> 0 < tol -> tol <= Rabs s ->
  Quaternion.__mul__ tol q (Quaternion.a_number s)
  = Ok (Quaternion.a_quaternion
          (Quaternion.instance
             (GeneralQuaternion.make
                (Quaternion.qr q * s / Rabs s) (Quaternion.qi q * s / Rabs s)
                (Quaternion.qj q * s / Rabs s) (Quaternion.qk q * s / Rabs s)))).
Proof.
  intros Hq Htol Hs.
  pose proof (scalar_mul_norm q s Hq) as Hn.
  unfold GeneralQuaternion.coordinates, GeneralQuaternion.scalar_mul in Hn; simpl in Hn.
  unfold Quaternion.__mul__, Quaternion.of_coordinates, GeneralQuaternion.scalar_mul; simpl.
  rewrite init_returns by (rewrite Hn; lra).
  rewrite Hn. reflexivity.
Qed.

(** C1, as the code has it: for a unit quaternion [q] and a scalar [s] of
    absolute value at or above the threshold, [q * s] is the base-algebra
    product divided by its norm [|s|] and wrapped back as a [Quaternion]:
    [q] itself for positive [s], [-q] for negative [s]. *)
Theorem mul_scalar_renormalizes (tol : R) (q : Quaternion.t) (s : R)
    (Hq : Quaternion.is_unitary q) (Htol : 0 < tol) (Hs : tol <= Rabs s) :
  Quaternion.__mul__ tol q (Quaternion.a_number s)
  = Ok (Quaternion.a_quaternion
          (Quaternion.instance
             (GeneralQuaternion.make
                (Quaternion.qr q * s / Rabs s) (Quaternion.qi q * s / Rabs s)
                (Quaternion.qj q * s / Rabs s) (Quaternion.qk q * s / Rabs s))))
  /\ (0 < s ->
      Quaternion.__mul__ tol q (Quaternion.a_number s) = Ok (Quaternion.a_quaternion q))
  /\ (s < 0 ->
      Quaternion.__mul__ tol q (Quaternion.a_number s)
      = Ok (Quaternion.a_quaternion (Quaternion.__neg__ q))).
Proof.
  pose proof (mul_scalar_returns tol q s Hq Htol Hs) as H.
  split; [exact H|]. split; intros Hsign; rewrite H; do 2 f_equal.
  - rewrite Rabs_right by lra.
    rewrite <- (quaternion_eta q) at 5. apply instance_ext; field; lra.
  - rewrite Rabs_left by lra.
    destruct q as [[a b c d]]. unfold Quaternion.__neg__, GeneralQuaternion.__neg__; simpl.
    unfold Quaternion.qr, Quaternion.qi, Quaternion.qj, Quaternion.qk; simpl.
    apply instance_ext; field; lra.
Qed.

Lemma mul_scalar_renormalizes_witness :
  Quaternion.__mul__ (1 / 2) Quaternion.unit (Quaternion.a_number 2)
  = Ok (Quaternion.a_quaternion
          (Quaternion.instance
             (GeneralQuaternion.make
                (Quaternion.qr Quaternion.unit * 2 / Rabs 2)
                (Quaternion.qi Quaternion.unit * 2 / Rabs 2)
                (Quaternion.qj Quaternion.unit * 2 / Rabs 2)
                (Quaternion.qk Quaternion.unit * 2 / Rabs 2))))
  /\ (0 < 2 ->
      Quaternion.__mul__ (1 / 2) Quaternion.unit (Quaternion.a_number 2)
      = Ok (Quaternion.a_quaternion Quaternion.unit))
  /\ (2 < 0 ->
      Quaternion.__mul__ (1 / 2) Quaternion.unit (Quaternion.a_number 2)
      = Ok (Quaternion.a_quaternion (Quaternion.__neg__ Quaternion.unit))).
Proof.
  apply (mul_scalar_renormalizes (1 / 2) Quaternion.unit 2).
  - exact unit_is_unitary.
  - lra.
  - rewrite Rabs_right; lra.
Defined.

(** At the threshold 1e-8, [Quaternion(1,0,0,0) * 2] is the unit quaternion
    (1,0,0,0) again, not the base-algebra value (2,0,0,0). *)
Lemma mul_scalar_is_rewrapped :
  Quaternion.__mul__ (1 / 100000000) Quaternion.unit (Quaternion.a_number 2)
  = Ok (Quaternion.a_quaternion Quaternion.unit)
  /\ Quaternion.__mul__ (1 / 100000000) Quaternion.unit (Quaternion.a_number 2)
     <> Ok (Quaternion.a_general_quaternion
              (GeneralQuaternion.scalar_mul (Quaternion.super Quaternion.unit) 2)).
Proof.
  assert (Quaternion.__mul__ (1 / 100000000) Quaternion.unit (Quaternion.a_number 2)
          = Ok (Quaternion.a_quaternion Quaternion.unit)) as H.
  { rewrite mul_scalar_returns.
    - rewrite Rabs_right by lra.
      unfold Quaternion.unit, Quaternion.qr, Quaternion.qi, Quaternion.qj, Quaternion.qk.
      cbn [Quaternion.super GeneralQuaternion.qr GeneralQuaternion.qi
           GeneralQuaternion.qj GeneralQuaternion.qk].
      do 2 f_equal. apply instance_ext; lra.
    - exact unit_is_unitary.
    - lra.
    - rewrite Rabs_right; lra. }
  split; [exact H|]. rewrite H. discriminate.
Qed.

(** C9, as the code has it: an operand that is neither a quaternion, nor a
    number, nor an iterable, or that is an iterable whose length is not
    three, makes [*] and the call raise [QuaternionError], the very class
    the constructor raises on a degenerate input; only the message differs. *)
Theorem mul_unsupported_raises (tol : R) (q : Quaternion.t) (p : Quaternion.operand)
    (Hp : Quaternion.unsupported p) :
  Quaternion.__mul__ tol q p = Raise (QuaternionError cant_multiply_by)
  /\ Quaternion.__call__ tol q p = Raise (QuaternionError cant_multiply_by)
  /\ forall qr qi qj qk e,
       Quaternion.__init__ tol qr qi qj qk = Raise e ->
       exception_class e = exception_class (QuaternionError cant_multiply_by).
Proof.
  assert (Quaternion.__mul__ tol q p = Raise (QuaternionError cant_multiply_by)) as H.
  { destruct p as [p | s | g | v | |]; simpl in Hp; try contradiction; simpl.
    - destruct (Nat.eqb_spec (List.length v) 3); [contradiction | reflexivity].
    - reflexivity. }
  repeat split; try exact H.
  intros qr qi qj qk e He. unfold Quaternion.__init__ in He.
  destruct (Rlt_dec _ _); inversion He. reflexivity.
Qed.

Lemma mul_unsupported_raises_witness :
  Quaternion.__mul__ (1 / 2) Quaternion.unit (Quaternion.an_iterable [1; 2])
  = Raise (QuaternionError cant_multiply_by)
  /\ Quaternion.__call__ (1 / 2) Quaternion.unit (Quaternion.an_iterable [1; 2])
     = Raise (QuaternionError cant_multiply_by)
  /\ forall qr qi qj qk e,
       Quaternion.__init__ (1 / 2) qr qi qj qk = Raise e ->
       exception_class e = exception_class (QuaternionError cant_multiply_by).
Proof.
  apply (mul_unsupported_raises (1 / 2) Quaternion.unit (Quaternion.an_iterable [1; 2])).
  simpl. lia.
Defined.

(** At the threshold 1e-8, the error of an unsupported operand and the error
    of the degenerate construction [Quaternion(0,0,0,0)] are of one class. *)
Lemma unsupported_and_unstable_same_class :
  exists e1 e2,
    Quaternion.__mul__ (1 / 100000000) Quaternion.unit Quaternion.another_object = Raise e1
    /\ Quaternion.__init__ (1 / 100000000) 0 0 0 0 = Raise e2
    /\ exception_class e1 = exception_class e2.
Proof.
  exists (QuaternionError cant_multiply_by),
         (QuaternionError (unstable_quaternion [0; 0; 0; 0])).
  repeat split.
  apply init_raises. rewrite norm_zero4. lra.
Qed.

(** ** Equality and distance up to sign *)

Lemma neg_involutive (q : Quaternion.t) :
  Quaternion.__neg__ (Quaternion.__neg__ q) = q.
Proof.
  destruct q as [[a b c d]].
  unfold Quaternion.__neg__, GeneralQuaternion.__neg__; simpl.
  apply instance_ext; ring.
Qed.

Lemma euclidean_distance_refl (g : GeneralQuaternion.t) :
  GeneralQuaternion.euclidean_distance g g = 0.
Proof.
  destruct g as [a b c d].
  unfold GeneralQuaternion.euclidean_distance, GeneralQuaternion.norm,
    GeneralQuaternion.__sub__, GeneralQuaternion.coordinates; simpl.
  replace (a - a) with 0 by ring. replace (b - b) with 0 by ring.
  replace (c - c) with 0 by ring. replace (d - d) with 0 by ring.
  apply norm_zero4.
Qed.

Lemma euclidean_distance_nonneg (p q : GeneralQuaternion.t) :
  0 <= GeneralQuaternion.euclidean_distance p q.
Proof. apply norm_nonneg. Qed.

(** C3: a quaternion and its negation are equal under [is_equal] at a
    positive tolerance and at distance zero; the distance of two quaternions
    is the smaller of the coordinate distances to the other one and to its
    negation. *)
Theorem is_equal_and_distance_fold_sign (tol : R) (p q : Quaternion.t)
    (Htol : 0 < tol) :
  Quaternion.is_equal q (Quaternion.__neg__ q) tol = true
  /\ Quaternion.distance q (Quaternion.__neg__ q) = 0
  /\ Quaternion.distance p q
     = Rmin (np.norm [Quaternion.qr p - Quaternion.qr q; Quaternion.qi p - Quaternion.qi q;
                      Quaternion.qj p - Quaternion.qj q; Quaternion.qk p - Quaternion.qk q])
            (np.norm [Quaternion.qr p + Quaternion.qr q; Quaternion.qi p + Quaternion.qi q;
                      Quaternion.qj p + Quaternion.qj q; Quaternion.qk p + Quaternion.qk q]).
Proof.
  repeat split.
  - unfold Quaternion.is_equal. rewrite neg_involutive.
    apply orb_true_iff. right.
    unfold GeneralQuaternion.is_equal. rewrite euclidean_distance_refl.
    destruct (Rlt_dec 0 tol); [reflexivity | contradiction].
  - unfold Quaternion.distance. rewrite neg_involutive, euclidean_distance_refl.
    apply Rmin_right. apply euclidean_distance_nonneg.
  - destruct p as [[a b c d]], q as [[a' b' c' d']].
    unfold Quaternion.distance, GeneralQuaternion.euclidean_distance,
      GeneralQuaternion.norm, GeneralQuaternion.__sub__, Quaternion.__neg__,
      GeneralQuaternion.__neg__, GeneralQuaternion.coordinates,
      Quaternion.qr, Quaternion.qi, Quaternion.qj, Quaternion.qk; simpl.
    unfold Rminus. now rewrite !Ropp_involutive.
Qed.

Lemma is_equal_and_distance_fold_sign_witness :
  Quaternion.is_equal Quaternion.unit (Quaternion.__neg__ Quaternion.unit) (1 / 100000000)
  = true
  /\ Quaternion.distance Quaternion.unit (Quaternion.__neg__ Quaternion.unit) = 0
  /\ Quaternion.distance (Quaternion.__neg__ Quaternion.unit) Quaternion.unit
     = Rmin (np.norm [Quaternion.qr (Quaternion.__neg__ Quaternion.unit)
                      - Quaternion.qr Quaternion.unit;
                      Quaternion.qi (Quaternion.__neg__ Quaternion.unit)
                      - Quaternion.qi Quaternion.unit;
                      Quaternion.qj (Quaternion.__neg__ Quaternion.unit)
                      - Quaternion.qj Quaternion.unit;
                      Quaternion.qk (Quaternion.__neg__ Quaternion.unit)
                      - Quaternion.qk Quaternion.unit])
            (np.norm [Quaternion.qr (Quaternion.__neg__ Quaternion.unit)
                      + Quaternion.qr Quaternion.unit;
                      Quaternion.qi (Quaternion.__neg__ Quaternion.unit)
                      + Quaternion.qi Quaternion.unit;
                      Quaternion.qj (Quaternion.__neg__ Quaternion.unit)
                      + Quaternion.qj Quaternion.unit;
                      Quaternion.qk (Quaternion.__neg__ Quaternion.unit)
                      + Quaternion.qk Quaternion.unit]).
Proof.
  apply (is_equal_and_distance_fold_sign (1 / 100000000)
           (Quaternion.__neg__ Quaternion.unit) Quaternion.unit).
  lra.
Defined.

(** ** Logarithm *)

(** C6: when the imaginary part has norm zero, [log] takes its explicit
    branch and returns (ln|q|, pi, 0, 0) for [qr <= 0] and (ln|q|, 0, 0, 0)
    otherwise; on a unit quaternion the scalar part [ln|q|] is zero. *)
Theorem log_zero_imaginary_part (q : Quaternion.t)
    (Himag : np.norm [Quaternion.qi q; Quaternion.qj q; Quaternion.qk q] = 0) :
  Quaternion.log q
  = GeneralQuaternion.make (ln (GeneralQuaternion.norm (Quaternion.super q)))
      (if Rle_dec (Quaternion.qr q) 0 then PI else 0) 0 0
  /\ (Quaternion.is_unitary q ->
      Quaternion.log q
      = GeneralQuaternion.make 0 (if Rle_dec (Quaternion.qr q) 0 then PI else 0) 0 0).
Proof.
  assert (Quaternion.log q
          = GeneralQuaternion.make (ln (GeneralQuaternion.norm (Quaternion.super q)))
              (if Rle_dec (Quaternion.qr q) 0 then PI else 0) 0 0) as H.
  { apply norm3_zero_inv in Himag. destruct Himag as (Hi & Hj & Hk).
    unfold Quaternion.log. rewrite Hi, Hj, Hk. cbn [map].
    replace (0 / GeneralQuaternion.norm (Quaternion.super q)) with 0
      by (unfold Rdiv; ring).
    destruct (Req_dec_T (np.norm [0; 0; 0]) 0) as [_ | Hne];
      [| exfalso; apply Hne, norm_zero3].
    f_equal.
    destruct (Rlt_dec 0 (Quaternion.qr q)), (Rle_dec (Quaternion.qr q) 0);
      try reflexivity; lra. }
  split; [exact H|].
  intros Hq. rewrite H. unfold Quaternion.is_unitary in Hq. rewrite Hq, ln_1.
  reflexivity.
Qed.

Lemma log_zero_imaginary_part_witness :
  Quaternion.log (Quaternion.__neg__ Quaternion.unit)
  = GeneralQuaternion.make
      (ln (GeneralQuaternion.norm (Quaternion.super (Quaternion.__neg__ Quaternion.unit))))
      (if Rle_dec (Quaternion.qr (Quaternion.__neg__ Quaternion.unit)) 0 then PI else 0) 0 0
  /\ (Quaternion.is_unitary (Quaternion.__neg__ Quaternion.unit) ->
      Quaternion.log (Quaternion.__neg__ Quaternion.unit)
      = GeneralQuaternion.make 0
          (if Rle_dec (Quaternion.qr (Quaternion.__neg__ Quaternion.unit)) 0 then PI else 0)
          0 0).
Proof.
  apply (log_zero_imaginary_part (Quaternion.__neg__ Quaternion.unit)).
  unfold Quaternion.qi, Quaternion.qj, Quaternion.qk; simpl.
  rewrite Ropp_0. exact norm_zero3.
Defined.

(** ** The positive representant *)

Lemma positive_representant_loop_first_nonzero (self : Quaternion.t) (coords : list R) (c : R) :
  Quaternion.first_nonzero coords = Some c ->
  Quaternion.positive_representant_loop self coords
  = Some (if Rlt_dec 0 c then self else Quaternion.__neg__ self).
Proof.
  induction coords as [|x rest IH]; simpl; [discriminate|].
  destruct (Req_dec_T x 0) as [Hz | Hnz].
  - intros H. destruct (Rlt_dec 0 x); [lra|]. destruct (Rlt_dec x 0); [lra|]. now apply IH.
  - intros H. injection H as <-.
    destruct (Rlt_dec 0 x); [reflexivity|].
    destruct (Rlt_dec x 0); [reflexivity | lra].
Qed.

Lemma first_nonzero_nonzero (coords : list R) (c : R) :
  Quaternion.first_nonzero coords = Some c -> c <> 0.
Proof.
  induction coords as [|x rest IH]; simpl; [discriminate|].
  destruct (Req_dec_T x 0); [exact IH|]. now intros [= <-].
Qed.

Lemma unitary_first_nonzero (q : Quaternion.t) :
  Quaternion.is_unitary q ->
  exists c, Quaternion.first_nonzero (Quaternion.coordinates q) = Some c.
Proof.
  destruct q as [[a b c d]].
  unfold Quaternion.is_unitary, GeneralQuaternion.norm, Quaternion.coordinates,
    GeneralQuaternion.coordinates.
  cbn [Quaternion.super GeneralQuaternion.qr GeneralQuaternion.qi GeneralQuaternion.qj
       GeneralQuaternion.qk Quaternion.first_nonzero].
  intros Hn.
  destruct (Req_dec_T a 0) as [-> |]; [|eauto].
  destruct (Req_dec_T b 0) as [-> |]; [|eauto].
  destruct (Req_dec_T c 0) as [-> |]; [|eauto].
  destruct (Req_dec_T d 0) as [-> |]; [|eauto].
  rewrite norm_zero4 in Hn. lra.
Qed.

(** C8: a unit quaternion has a first nonzero coordinate in the order
    (scalar, i, j, k), and [positive_representant] returns the quaternion
    itself when that coordinate is positive and its negation when it is
    negative. *)
Theorem positive_representant_first_nonzero (q : Quaternion.t)
    (Hq : Quaternion.is_unitary q) :
  exists c,
    Quaternion.first_nonzero [Quaternion.qr q; Quaternion.qi q; Quaternion.qj q; Quaternion.qk q]
    = Some c
    /\ (0 < c -> Quaternion.positive_representant q = Some q)
    /\ (c < 0 -> Quaternion.positive_representant q = Some (Quaternion.__neg__ q)).
Proof.
  destruct (unitary_first_nonzero q Hq) as [c Hc].
  exists c. split; [exact Hc|].
  pose proof (positive_representant_loop_first_nonzero q _ c Hc) as H.
  fold (Quaternion.positive_representant q) in H.
  split; intros Hsign; rewrite H.
  - destruct (Rlt_dec 0 c); [reflexivity | lra].
  - destruct (Rlt_dec 0 c); [lra | reflexivity].
Qed.

Lemma positive_representant_first_nonzero_witness :
  exists c,
    Quaternion.first_nonzero
      [Quaternion.qr Quaternion.unit; Quaternion.qi Quaternion.unit;
       Quaternion.qj Quaternion.unit; Quaternion.qk Quaternion.unit] = Some c
    /\ (0 < c -> Quaternion.positive_representant Quaternion.unit = Some Quaternion.unit)
    /\ (c < 0 ->
        Quaternion.positive_representant Quaternion.unit
        = Some (Quaternion.__neg__ Quaternion.unit)).
Proof.
  apply (positive_representant_first_nonzero Quaternion.unit).
  exact unit_is_unitary.
Defined.

(** ** Rotation matrices *)

Lemma list4_ext (x1 x2 x3 x4 y1 y2 y3 y4 : R) :
  x1 = y1 -> x2 = y2 -> x3 = y3 -> x4 = y4 -> [x1; x2; x3; x4] = [y1; y2; y3; y4].
Proof. intros -> -> -> ->. reflexivity. Qed.

Lemma unit_sum_squares (a b c d : R) :
  np.norm [a; b; c; d] = 1 -> a * a + b * b + c * c + d * d = 1.
Proof.
  unfold np.norm. intros H.
  pose proof (sqrt_sqrt (np.sum_squares [a; b; c; d]) (sum_squares_nonneg _)) as Hs.
  rewrite H in Hs. simpl in Hs. lra.
Qed.







Lemma argmax4 (A B C D : R) :
  let m := np.argmax [A; B; C; D] in
  (m = 0%nat /\ B <= A /\ C <= A /\ D <= A)
  \/ (m = 1%nat /\ A <= B /\ C <= B /\ D <= B)
  \/ (m = 2%nat /\ A <= C /\ B <= C /\ D <= C)
  \/ (m = 3%nat /\ A <= D /\ B <= D /\ C <= D).
Proof.
  cbv [np.argmax np.argmax_from].
  destruct (Rlt_dec A B), (Rlt_dec A C), (Rlt_dec B C), (Rlt_dec A D),
    (Rlt_dec B D), (Rlt_dec C D); try lra;
    first [ left; repeat split; lra
          | right; left; repeat split; lra
          | right; right; left; repeat split; lra
          | right; right; right; repeat split; lra ].
Qed.






(** ** Integration of velocity vectors *)



(** On two quaternions the last one is multiplied first: (1 * q2) * q1. *)
Example compose_reversed_two (tol : R) (q1 q2 : Quaternion.t) :
  reduce (Quaternion.mul_quaternion tol) (rev [q1; q2]) Quaternion.unit
  = (p <- Quaternion.mul_quaternion tol Quaternion.unit q2 ;;
     Quaternion.mul_quaternion tol p q1).
Proof.
  simpl. destruct (Quaternion.mul_quaternion tol Quaternion.unit q2) as [p|e]; simpl.
  - destruct (Quaternion.mul_quaternion tol p q1); reflexivity.
  - reflexivity.
Qed.

(** The norm is multiplicative on the product of the base algebra. *)
Lemma general_mul_norm (p q : GeneralQuaternion.t) :
  GeneralQuaternion.norm (GeneralQuaternion.__mul__ p q)
  = GeneralQuaternion.norm p * GeneralQuaternion.norm q.
Proof.
  destruct p as [a b c d], q as [a' b' c' d'].
  unfold GeneralQuaternion.norm, GeneralQuaternion.__mul__, GeneralQuaternion.coordinates,
    np.norm.
  cbn [GeneralQuaternion.qr GeneralQuaternion.qi GeneralQuaternion.qj GeneralQuaternion.qk].
  rewrite <- sqrt_mult by apply sum_squares_nonneg.
  f_equal. simpl. ring.
Qed.

(** The product of two unit quaternions passes the constructor unchanged. *)
Lemma mul_quaternion_unitary (tol : R) (p q : Quaternion.t) :
  tol <= 1 -> Quaternion.is_unitary p -> Quaternion.is_unitary q ->
  exists r,
    Quaternion.mul_quaternion tol p q = Ok r
    /\ Quaternion.super r = GeneralQuaternion.__mul__ (Quaternion.super p) (Quaternion.super q)
    /\ Quaternion.is_unitary r.
Proof.
  intros Htol Hp Hq.
  assert (GeneralQuaternion.norm
            (GeneralQuaternion.__mul__ (Quaternion.super p) (Quaternion.super q)) = 1) as Hn.
  { rewrite general_mul_norm. unfold Quaternion.is_unitary in Hp, Hq. rewrite Hp, Hq. ring. }
  exists (Quaternion.instance
            (GeneralQuaternion.__mul__ (Quaternion.super p) (Quaternion.super q))).
  repeat split; [| exact Hn].
  unfold Quaternion.mul_quaternion, Quaternion.of_coordinates.
  rewrite init_unit_norm; [reflexivity | exact Htol | exact Hn].
Qed.






(** ** The q-method *)

Lemma sum_seq_ext (f g : nat -> R) (start len : nat) :
  (forall k, (start <= k < start + len)%nat -> f k = g k) ->
  fold_right (fun k acc => f k + acc) 0 (seq start len)
  = fold_right (fun k acc => g k + acc) 0 (seq start len).
Proof.
  revert start. induction len as [|len IH]; intros start H; simpl; [reflexivity|].
  rewrite (H start) by lia. f_equal. apply IH. intros k Hk. apply H. lia.
Qed.

Lemma sum_seq_zero (f : nat -> R) (start len : nat) :
  (forall k, (start <= k < start + len)%nat -> f k = 0) ->
  fold_right (fun k acc => f k + acc) 0 (seq start len) = 0.
Proof.
  revert start. induction len as [|len IH]; intros start H; simpl; [reflexivity|].
  rewrite (H start) by lia. rewrite IH; [ring|]. intros k Hk. apply H. lia.
Qed.

(** A sum against one column of a diagonal matrix keeps one term. *)
Lemma sum_seq_diag (f : nat -> R) (w : list R) (l start len : nat) :
  (start <= l < start + len)%nat ->
  fold_right (fun k acc => f k * (if Nat.eqb k l then nth k w 0 else 0) + acc) 0
             (seq start len)
  = f l * nth l w 0.
Proof.
  revert start. induction len as [|len IH]; intros start H; [lia|]. simpl.
  destruct (Nat.eqb_spec start l) as [-> | Hne].
  - rewrite sum_seq_zero; [ring|].
    intros k Hk. destruct (Nat.eqb_spec k l); [lia | ring].
  - rewrite IH by lia. ring.
Qed.

Lemma dot_diag_entry {n : nat} (source : np.matrix 3 n) (w : list R) (a l : nat) :
  (l < n)%nat ->
  np.entry (np.dot source (np.diag (n := n) w)) a l = np.entry source a l * nth l w 0.
Proof.
  intros Hl. unfold np.dot, np.diag, np.sum_n; cbn [np.entry].
  apply (sum_seq_diag (fun k => np.entry source a k) w l 0 n). lia.
Qed.

Lemma from_qmethod_B_entries {n : nat} (source target : np.matrix 3 n)
    (probabilities : option (list R)) :
  Quaternion.weights_fit n probabilities ->
  exists B,
    Quaternion.from_qmethod_B source target probabilities = Ok B
    /\ forall a b,
         np.entry B a b
         = Quaternion.weighted_cross_covariance source target
             (Quaternion.weight probabilities) a b.
Proof.
  intros Hw. destruct probabilities as [w|]; simpl in Hw; unfold Quaternion.from_qmethod_B.
  - rewrite Hw, Nat.eqb_refl. eexists. split; [reflexivity|].
    intros a b. unfold Quaternion.weighted_cross_covariance, Quaternion.weight.
    unfold np.dot at 1. cbn [np.entry]. unfold np.sum_n.
    apply sum_seq_ext. intros k Hk.
    rewrite dot_diag_entry by lia. reflexivity.
  - eexists. split; [reflexivity|].
    intros a b. unfold Quaternion.weighted_cross_covariance, Quaternion.weight.
    unfold np.dot, np.T. cbn [np.entry]. unfold np.sum_n.
    apply sum_seq_ext. intros k _. ring.
Qed.

Lemma from_qmethod_K_rows (B : np.matrix 3 3) :
  np.rows (Quaternion.from_qmethod_K B) = Quaternion.davenport_K B.
Proof.
  unfold Quaternion.from_qmethod_K, Quaternion.davenport_K. np_unfold.
  entrywise; ring.
Qed.

Lemma from_qmethod_K_symmetric (B : np.matrix 3 3) :
  np.rows (np.T (Quaternion.from_qmethod_K B)) = np.rows (Quaternion.from_qmethod_K B).
Proof.
  unfold Quaternion.from_qmethod_K. np_unfold. entrywise; ring.
Qed.

Lemma dot_vec_opp (K : np.matrix 4 4) (v : list R) (lam : R) :
  List.length v = 4%nat ->
  np.dot_vec K v = map (Rmult lam) v ->
  np.dot_vec K (map Ropp v) = map (Rmult lam) (map Ropp v).
Proof.
  intros Hlen.
  destruct v as [|a [|b [|c [|d [|]]]]]; try discriminate.
  np_unfold. intros H. injection H as H0 H1 H2 H3.
  entrywise; nra.
Qed.

Lemma norm4_opp (a b c d : R) : np.norm [- a; - b; - c; - d] = np.norm [a; b; c; d].
Proof. unfold np.norm. f_equal. simpl. ring. Qed.

(** [_first_eigenvector] on an eigensolver output whose last column is
    normalized: the column, or its negation when its first entry is negative. *)
Lemma first_eigenvector_returns (tol : R) (eigh : np.matrix 4 4 -> list R * np.matrix 4 4)
    (K : np.matrix 4 4) (vals : list R) (vecs : np.matrix 4 4) :
  tol <= 1 -> eigh K = (vals, vecs) -> np.norm (np.column vecs 3) = 1 ->
  exists q,
    Quaternion._first_eigenvector tol eigh K = Ok q
    /\ Quaternion.is_unitary q
    /\ 0 <= Quaternion.qr q
    /\ Quaternion.coordinates q
       = if Rlt_dec (np.entry vecs 0 3) 0 then map Ropp (np.column vecs 3)
         else np.column vecs 3.
Proof.
  intros Htol He Hn. unfold Quaternion._first_eigenvector. rewrite He.
  destruct vecs as [f]. revert Hn. np_unfold. intros Hn.
  destruct (Rlt_dec (f 0 3)%nat 0) as [Hneg | Hpos]; unfold Quaternion.of_array.
  - rewrite init_unit_norm by (try rewrite norm4_opp; assumption).
    eexists. split; [reflexivity|]. repeat split.
    + unfold Quaternion.is_unitary, GeneralQuaternion.norm, GeneralQuaternion.coordinates.
      cbn [Quaternion.super GeneralQuaternion.qr GeneralQuaternion.qi
           GeneralQuaternion.qj GeneralQuaternion.qk].
      now rewrite norm4_opp.
    + unfold Quaternion.qr; simpl. lra.
  - rewrite init_unit_norm by assumption.
    eexists. split; [reflexivity|]. repeat split.
    + exact Hn.
    + unfold Quaternion.qr; simpl. lra.
Qed.

(** C5: [from_qmethod] builds [B] as the weighted product of [source] with
    the transpose of [target], assembles the symmetric matrix
    K = [[sigma, z^t], [z, S - sigma I]] from it and returns
    [_first_eigenvector K]; when the eigensolver keeps numpy's contract on
    [K], the result is the unit quaternion whose coordinates are the
    eigenvector of the last, largest eigenvalue, negated as a whole when its
    first entry is negative. *)
Theorem from_qmethod_davenport (tol : R) (eigh : np.matrix 4 4 -> list R * np.matrix 4 4)
    (n : nat) (source target : np.matrix 3 n) (probabilities : option (list R))
    (Hw : Quaternion.weights_fit n probabilities) :
  exists B,
    Quaternion.from_qmethod_B source target probabilities = Ok B
    /\ (forall a b,
          np.entry B a b
          = Quaternion.weighted_cross_covariance source target
              (Quaternion.weight probabilities) a b)
    /\ np.rows (Quaternion.from_qmethod_K B) = Quaternion.davenport_K B
    /\ np.rows (np.T (Quaternion.from_qmethod_K B)) = np.rows (Quaternion.from_qmethod_K B)
    /\ Quaternion.from_qmethod tol eigh source target probabilities
       = Quaternion._first_eigenvector tol eigh (Quaternion.from_qmethod_K B)
    /\ forall vals vecs,
         tol <= 1 ->
         eigh (Quaternion.from_qmethod_K B) = (vals, vecs) ->
         Quaternion.eigh_contract (Quaternion.from_qmethod_K B) vals vecs ->
         exists q,
           Quaternion.from_qmethod tol eigh source target probabilities = Ok q
           /\ Quaternion.is_unitary q
           /\ 0 <= Quaternion.qr q
           /\ Quaternion.coordinates q
              = (if Rlt_dec (np.entry vecs 0 3) 0 then map Ropp (np.column vecs 3)
                 else np.column vecs 3)
           /\ np.dot_vec (Quaternion.from_qmethod_K B) (Quaternion.coordinates q)
              = map (Rmult (nth 3 vals 0)) (Quaternion.coordinates q)
           /\ forall i, (i < 4)%nat -> nth i vals 0 <= nth 3 vals 0.
Proof.
  destruct (from_qmethod_B_entries source target probabilities Hw) as (B & HB & Hentries).
  exists B. split; [exact HB|]. split; [exact Hentries|].
  split; [apply from_qmethod_K_rows|]. split; [apply from_qmethod_K_symmetric|].
  assert (Quaternion.from_qmethod tol eigh source target probabilities
          = Quaternion._first_eigenvector tol eigh (Quaternion.from_qmethod_K B)) as Hq.
  { unfold Quaternion.from_qmethod. rewrite HB. reflexivity. }
  split; [exact Hq|].
  intros vals vecs Htol He (Hlen & Hasc & Hcols).
  destruct (Hcols 3%nat ltac:(lia)) as (Hn & Heig).
  destruct (first_eigenvector_returns tol eigh _ vals vecs Htol He Hn)
    as (q & Hret & Hu & Hpos & Hcoords).
  exists q. rewrite Hq. repeat split; try assumption.
  - rewrite Hcoords. destruct (Rlt_dec (np.entry vecs 0 3) 0); [|exact Heig].
    apply dot_vec_opp; [reflexivity | exact Heig].
  - intros i Hi. apply Hasc. lia.
Qed.

Lemma norm4_of_sum (a b c d : R) :
  a * a + b * b + c * c + d * d = 1 -> np.norm [a; b; c; d] = 1.
Proof.
  intros H. unfold np.norm, np.sum_squares, fold_right.
  replace (a * a + (b * b + (c * c + (d * d + 0)))) with 1 by lra.
  apply sqrt_1.
Qed.

Lemma from_qmethod_davenport_witness :
  exists q,
    Quaternion.from_qmethod (1 / 100000000) Quaternion.eigh_of_diag_3_m1_m1_m1
      (np.identity 3) (np.identity 3) (Some [1; 1; 1]) = Ok q
    /\ Quaternion.coordinates q = [1; 0; 0; 0].
Proof.
  destruct (from_qmethod_davenport (1 / 100000000) Quaternion.eigh_of_diag_3_m1_m1_m1
              3 (np.identity 3) (np.identity 3) (Some [1; 1; 1]) eq_refl)
    as (B & HB & _ & _ & _ & _ & Hq).
  cbv [Quaternion.from_qmethod_B List.length Nat.eqb] in HB.
  injection HB as <-.
  destruct (Hq [-1; -1; -1; 3]
              (np.array [[0; 0; 0; 1]; [1; 0; 0; 0]; [0; 1; 0; 0]; [0; 0; 1; 0]]))
    as (q & Hret & _ & _ & Hc & _).
  - lra.
  - reflexivity.
  - split; [reflexivity|]. split.
    + intros i j Hij.
      destruct i as [|[|[|[|i]]]], j as [|[|[|[|j]]]]; simpl; try lia; lra.
    + intros i Hi. destruct i as [|[|[|[|i]]]]; try lia;
        (split; [apply norm4_of_sum; np_unfold; ring
                | unfold Quaternion.from_qmethod_K; np_unfold; entrywise; ring]).
  - exists q. split; [exact Hret|]. rewrite Hc. np_unfold.
    destruct (Rlt_dec 1 0); [lra | reflexivity].
Defined.

(** ** Further properties of the rotation matrix *)

Lemma unitary_sum_squares (q : Quaternion.t) :
  Quaternion.is_unitary q ->
  Quaternion.qr q * Quaternion.qr q + Quaternion.qi q * Quaternion.qi q
  + Quaternion.qj q * Quaternion.qj q + Quaternion.qk q * Quaternion.qk q = 1.
Proof. intros Hq. now apply unit_sum_squares, is_unitary_norm. Qed.

(** X1: the matrix of a unit quaternion is orthogonal: multiplied by its
    transpose on either side it gives the identity. *)
Theorem matrix_orthogonal (q : Quaternion.t) (Hq : Quaternion.is_unitary q) :
  np.rows (np.dot (Quaternion.matrix q) (np.T (Quaternion.matrix q)))
  = np.rows (np.identity 3)
  /\ np.rows (np.dot (np.T (Quaternion.matrix q)) (Quaternion.matrix q))
     = np.rows (np.identity 3).
Proof.
  pose proof (unitary_sum_squares q Hq) as Hsum.
  destruct q as [[a b c d]]. revert Hsum. quaternion_unfold. intros Hsum.
  split; np_unfold; entrywise; unit_poly a b c d Hsum.
Qed.

Lemma matrix_orthogonal_witness :
  np.rows (np.dot (Quaternion.matrix Quaternion.unit)
                  (np.T (Quaternion.matrix Quaternion.unit)))
  = np.rows (np.identity 3)
  /\ np.rows (np.dot (np.T (Quaternion.matrix Quaternion.unit))
                     (Quaternion.matrix Quaternion.unit))
     = np.rows (np.identity 3).
Proof. apply (matrix_orthogonal Quaternion.unit). exact unit_is_unitary. Defined.

Lemma matrix_neg_entry (q : Quaternion.t) (i j : nat) :
  np.entry (Quaternion.matrix (Quaternion.__neg__ q)) i j
  = np.entry (Quaternion.matrix q) i j.
Proof.
  destruct q as [[a b c d]].
  unfold Quaternion.__neg__, GeneralQuaternion.__neg__. quaternion_unfold.
  destruct i as [|[|[|i]]], j as [|[|[|j]]]; np_unfold;
    try ring; destruct i; try ring; destruct j; ring.
Qed.

(** X2: a quaternion and its negation have the same matrix, so they rotate
    every vector alike and have the same right ascension, declination and
    roll. *)
Theorem matrix_neg (tol : R) (q : Quaternion.t) (v : list R)
    (negative_zero_ra negative_zero_roll : bool) :
  np.rows (Quaternion.matrix (Quaternion.__neg__ q)) = np.rows (Quaternion.matrix q)
  /\ Quaternion.__mul__ tol (Quaternion.__neg__ q) (Quaternion.an_iterable v)
     = Quaternion.__mul__ tol q (Quaternion.an_iterable v)
  /\ Quaternion.ra_dec_roll negative_zero_ra negative_zero_roll (Quaternion.__neg__ q)
     = Quaternion.ra_dec_roll negative_zero_ra negative_zero_roll q.
Proof.
  split; [| split].
  - unfold np.rows. cbn [map seq]. now rewrite !matrix_neg_entry.
  - unfold Quaternion.__mul__. destruct (Nat.eqb (List.length v) 3); [| reflexivity].
    do 2 f_equal. unfold np.dot_vec, np.sum_n. cbn [map seq fold_right].
    now rewrite !matrix_neg_entry.
  - unfold Quaternion.ra_dec_roll. now rewrite !matrix_neg_entry.
Qed.

(** X3: the three vectors of [basis] are the rows of the matrix; for a unit
    quaternion each has norm one and they are pairwise orthogonal. *)
Theorem basis_orthonormal (q : Quaternion.t) (Hq : Quaternion.is_unitary q) :
  let '(x, y, z) := Quaternion.basis q in
  np.rows (Quaternion.matrix q) = [x; y; z]
  /\ np.norm x = 1 /\ np.norm y = 1 /\ np.norm z = 1
  /\ np.vdot x y = 0 /\ np.vdot x z = 0 /\ np.vdot y z = 0.
Proof.
  pose proof (unitary_sum_squares q Hq) as Hsum.
  destruct q as [[a b c d]]. revert Hsum.
  unfold Quaternion.basis. quaternion_unfold. np_unfold. intros Hsum.
  split; [reflexivity|].
  unfold np.norm, np.sum_squares, fold_right, np.vdot.
  repeat split; try (rewrite <- sqrt_1; f_equal); unit_poly a b c d Hsum.
Qed.

Lemma basis_orthonormal_witness :
  let '(x, y, z) := Quaternion.basis Quaternion.unit in
  np.rows (Quaternion.matrix Quaternion.unit) = [x; y; z]
  /\ np.norm x = 1 /\ np.norm y = 1 /\ np.norm z = 1
  /\ np.vdot x y = 0 /\ np.vdot x z = 0 /\ np.vdot y z = 0.
Proof. apply (basis_orthonormal Quaternion.unit). exact unit_is_unitary. Defined.

(** X4: on an iterable of length three, [*] applies the rotation matrix; for
    a unit quaternion the result is a 3-vector of the same norm. *)
Theorem mul_vector_isometry (tol : R) (q : Quaternion.t) (v : list R)
    (Hq : Quaternion.is_unitary q) (Hv : List.length v = 3%nat) :
  exists w,
    Quaternion.__mul__ tol q (Quaternion.an_iterable v) = Ok (Quaternion.an_iterable w)
    /\ w = np.dot_vec (Quaternion.matrix q) v
    /\ List.length w = 3%nat
    /\ np.norm w = np.norm v.
Proof.
  pose proof (unitary_sum_squares q Hq) as Hsum.
  destruct v as [|x [|y [|z [|]]]]; try discriminate.
  eexists. split; [reflexivity|]. split; [reflexivity|]. split; [reflexivity|].
  destruct q as [[a b c d]]. revert Hsum. quaternion_unfold. np_unfold. intros Hsum.
  unfold np.norm, np.sum_squares, fold_right. f_equal.
  transitivity ((a * a + b * b + c * c + d * d) * (a * a + b * b + c * c + d * d)
                * (x * x + (y * y + (z * z + 0)))); [ring | rewrite Hsum; ring].
Qed.

Lemma mul_vector_isometry_witness :
  exists w,
    Quaternion.__mul__ (1 / 100000000) Quaternion.unit (Quaternion.an_iterable [1; 2; 3])
    = Ok (Quaternion.an_iterable w)
    /\ w = np.dot_vec (Quaternion.matrix Quaternion.unit) [1; 2; 3]
    /\ List.length w = 3%nat
    /\ np.norm w = np.norm [1; 2; 3].
Proof.
  apply (mul_vector_isometry (1 / 100000000) Quaternion.unit [1; 2; 3]).
  - exact unit_is_unitary.
  - reflexivity.
Defined.

(** X5: [OpticalAxisFirst] is accepted by the constructor as it stands, and
    it sends the coordinates (r, d, p) of a vector to (p, -r, -d). *)
Theorem optical_axis_first_permutes (tol : R) (Htol : tol <= 1) :
  exists q,
    Quaternion.OpticalAxisFirst tol = Ok q
    /\ Quaternion.coordinates q = [1 / 2; 1 / 2; - (1 / 2); 1 / 2]
    /\ forall r d p,
         Quaternion.__mul__ tol q (Quaternion.an_iterable [r; d; p])
         = Ok (Quaternion.an_iterable [p; - r; - d]).
Proof.
  eexists. split; [|split].
  - unfold Quaternion.OpticalAxisFirst. apply init_unit_norm; [exact Htol|].
    apply norm4_of_sum. field.
  - reflexivity.
  - intros r d p. unfold Quaternion.__mul__. cbn [List.length Nat.eqb].
    do 2 f_equal. quaternion_unfold. np_unfold. entrywise; field.
Qed.

Lemma optical_axis_first_permutes_witness :
  exists q,
    Quaternion.OpticalAxisFirst (1 / 100000000) = Ok q
    /\ Quaternion.coordinates q = [1 / 2; 1 / 2; - (1 / 2); 1 / 2]
    /\ forall r d p,
         Quaternion.__mul__ (1 / 100000000) q (Quaternion.an_iterable [r; d; p])
         = Ok (Quaternion.an_iterable [p; - r; - d]).
Proof. apply (optical_axis_first_permutes (1 / 100000000)). lra. Defined.

(** ** Further properties of the constructor *)

(** X6: the constructor sees its input up to a positive factor: a tuple and
    a positive multiple of it, both at or above the threshold, give the same
    quaternion; the negated tuple gives the negated quaternion. *)
Theorem init_scale_invariant (tol a b c d k : R)
    (Hn : tol <= np.norm [a; b; c; d]) (Hpos : 0 < tol) (Hk : 0 < k)
    (Hkn : tol <= np.norm [a * k; b * k; c * k; d * k]) :
  Quaternion.__init__ tol (a * k) (b * k) (c * k) (d * k) = Quaternion.__init__ tol a b c d
  /\ Quaternion.__init__ tol (- a) (- b) (- c) (- d)
     = fmap Quaternion.__neg__ (Quaternion.__init__ tol a b c d).
Proof.
  split.
  - rewrite (init_returns tol (a * k)), (init_returns tol a) by assumption.
    rewrite norm4_scale, (Rabs_right k) by lra.
    f_equal. apply instance_ext; field; lra.
  - rewrite (init_returns tol (- a)), (init_returns tol a)
      by (try rewrite norm4_opp; assumption).
    rewrite norm4_opp. unfold fmap, bind, Quaternion.__neg__, GeneralQuaternion.__neg__.
    cbn [Quaternion.super GeneralQuaternion.qr GeneralQuaternion.qi
         GeneralQuaternion.qj GeneralQuaternion.qk].
    f_equal. apply instance_ext; field; lra.
Qed.

Lemma init_scale_invariant_witness :
  Quaternion.__init__ (1 / 100000000) (3 * 2) (0 * 2) (0 * 2) (4 * 2)
  = Quaternion.__init__ (1 / 100000000) 3 0 0 4
  /\ Quaternion.__init__ (1 / 100000000) (- 3) (- 0) (- 0) (- 4)
     = fmap Quaternion.__neg__ (Quaternion.__init__ (1 / 100000000) 3 0 0 4).
Proof.
  apply (init_scale_invariant (1 / 100000000) 3 0 0 4 2).
  - rewrite norm_3_0_0_4. lra.
  - lra.
  - lra.
  - rewrite norm4_scale, norm_3_0_0_4, Rabs_right; lra.
Defined.

(** X7: the constructor is idempotent: handing it the coordinates of a
    quaternion it returned gives that quaternion again. *)
Theorem init_idempotent (tol a b c d : R) (q : Quaternion.t)
    (Hpos : 0 < tol) (Hle : tol <= 1)
    (Hq : Quaternion.__init__ tol a b c d = Ok q) :
  Quaternion.of_coordinates tol (Quaternion.super q) = Ok q.
Proof.
  destruct (Rlt_dec (np.norm [a; b; c; d]) tol) as [Hlt | Hge].
  - rewrite init_raises in Hq by assumption. discriminate.
  - rewrite init_returns in Hq by lra. injection Hq as <-.
    unfold Quaternion.of_coordinates.
    cbn [Quaternion.super GeneralQuaternion.qr GeneralQuaternion.qi
         GeneralQuaternion.qj GeneralQuaternion.qk].
    apply init_unit_norm; [exact Hle|]. apply norm4_normalized. lra.
Qed.

Lemma init_idempotent_witness :
  Quaternion.of_coordinates (1 / 100000000) (Quaternion.super Quaternion.unit)
  = Ok Quaternion.unit.
Proof.
  apply (init_idempotent (1 / 100000000) 1 0 0 0 Quaternion.unit).
  - lra.
  - lra.
  - apply init_unit_norm; [lra | exact unit_is_unitary].
Defined.

(** ** Further properties of equality and distance *)

Lemma euclidean_distance_sym (p q : GeneralQuaternion.t) :
  GeneralQuaternion.euclidean_distance p q = GeneralQuaternion.euclidean_distance q p.
Proof.
  destruct p as [a b c d], q as [a' b' c' d'].
  unfold GeneralQuaternion.euclidean_distance, GeneralQuaternion.norm, np.norm.
  f_equal. simpl. ring.
Qed.

Lemma euclidean_distance_neg_swap (p q : GeneralQuaternion.t) :
  GeneralQuaternion.euclidean_distance p (GeneralQuaternion.__neg__ q)
  = GeneralQuaternion.euclidean_distance q (GeneralQuaternion.__neg__ p).
Proof.
  destruct p as [a b c d], q as [a' b' c' d'].
  unfold GeneralQuaternion.euclidean_distance, GeneralQuaternion.norm, np.norm.
  f_equal. simpl. ring.
Qed.

Lemma euclidean_distance_neg_neg (p q : GeneralQuaternion.t) :
  GeneralQuaternion.euclidean_distance (GeneralQuaternion.__neg__ p) (GeneralQuaternion.__neg__ q)
  = GeneralQuaternion.euclidean_distance p q.
Proof.
  destruct p as [a b c d], q as [a' b' c' d'].
  unfold GeneralQuaternion.euclidean_distance, GeneralQuaternion.norm, np.norm.
  f_equal. simpl. ring.
Qed.

Lemma euclidean_distance_neg_left (p q : GeneralQuaternion.t) :
  GeneralQuaternion.euclidean_distance (GeneralQuaternion.__neg__ p) q
  = GeneralQuaternion.euclidean_distance p (GeneralQuaternion.__neg__ q).
Proof.
  destruct p as [a b c d], q as [a' b' c' d'].
  unfold GeneralQuaternion.euclidean_distance, GeneralQuaternion.norm, np.norm.
  f_equal. simpl. ring.
Qed.

Lemma general_neg_involutive (g : GeneralQuaternion.t) :
  GeneralQuaternion.__neg__ (GeneralQuaternion.__neg__ g) = g.
Proof.
  destruct g as [a b c d]. unfold GeneralQuaternion.__neg__; simpl.
  now rewrite !Ropp_involutive.
Qed.

(** X8: [is_equal] is symmetric and does not see the sign of either argument. *)
Theorem is_equal_symmetric_sign_blind (p q : Quaternion.t) (tol : R) :
  Quaternion.is_equal p q tol = Quaternion.is_equal q p tol
  /\ Quaternion.is_equal p (Quaternion.__neg__ q) tol = Quaternion.is_equal p q tol
  /\ Quaternion.is_equal (Quaternion.__neg__ p) q tol = Quaternion.is_equal p q tol.
Proof.
  unfold Quaternion.is_equal, GeneralQuaternion.is_equal, Quaternion.__neg__.
  cbn [Quaternion.super]. repeat split.
  - now rewrite (euclidean_distance_sym (Quaternion.super p)),
      (euclidean_distance_neg_swap (Quaternion.super p)).
  - rewrite general_neg_involutive. apply orb_comm.
  - rewrite euclidean_distance_neg_neg, euclidean_distance_neg_left. apply orb_comm.
Qed.

(** X9: [is_equal] at a tolerance holds exactly when [distance] is below it. *)
Theorem is_equal_iff_distance (p q : Quaternion.t) (tol : R) :
  Quaternion.is_equal p q tol = true <-> Quaternion.distance p q < tol.
Proof.
  unfold Quaternion.is_equal, Quaternion.distance, GeneralQuaternion.is_equal.
  set (d1 := GeneralQuaternion.euclidean_distance _ _).
  set (d2 := GeneralQuaternion.euclidean_distance _ _).
  unfold Rmin.
  destruct (Rlt_dec d1 tol), (Rlt_dec d2 tol), (Rle_dec d1 d2); simpl;
    split; intros H; try reflexivity; try discriminate; lra.
Qed.

Lemma norm_sqr (v : list R) : np.norm v * np.norm v = np.sum_squares v.
Proof. apply sqrt_sqrt, sum_squares_nonneg. Qed.

Lemma le_sqrt_of_sqr_le (m x : R) : 0 <= m -> m * m <= x -> m <= sqrt x.
Proof.
  intros Hm Hx. rewrite <- (sqrt_square m Hm). apply sqrt_le_1_alt. exact Hx.
Qed.

(** X10: [distance] is symmetric, never negative and blind to the sign of
    its argument; between two unit quaternions it is at most the square root
    of two. *)
Theorem distance_symmetric_bounded (p q : Quaternion.t) :
  Quaternion.distance p q = Quaternion.distance q p
  /\ Quaternion.distance p (Quaternion.__neg__ q) = Quaternion.distance p q
  /\ 0 <= Quaternion.distance p q
  /\ (Quaternion.is_unitary p -> Quaternion.is_unitary q ->
      Quaternion.distance p q <= sqrt 2).
Proof.
  unfold Quaternion.distance, Quaternion.__neg__. cbn [Quaternion.super].
  repeat split.
  - now rewrite (euclidean_distance_sym (Quaternion.super p)),
      (euclidean_distance_neg_swap (Quaternion.super p)).
  - rewrite general_neg_involutive. apply Rmin_comm.
  - apply Rmin_glb; apply euclidean_distance_nonneg.
  - intros Hp Hq.
    pose proof (unitary_sum_squares p Hp) as Hsp.
    pose proof (unitary_sum_squares q Hq) as Hsq.
    set (d1 := GeneralQuaternion.euclidean_distance _ _).
    set (d2 := GeneralQuaternion.euclidean_distance _ _).
    assert (0 <= d1) as H1 by apply euclidean_distance_nonneg.
    assert (0 <= d2) as H2 by apply euclidean_distance_nonneg.
    assert (d1 * d1 + d2 * d2 = 4) as Hsum.
    { unfold d1, d2, GeneralQuaternion.euclidean_distance, GeneralQuaternion.norm.
      rewrite !norm_sqr.
      destruct p as [[a b c d]], q as [[a' b' c' d']]. revert Hsp Hsq.
      quaternion_unfold. intros Hsp Hsq. simpl. nra. }
    apply le_sqrt_of_sqr_le; [now apply Rmin_glb|].
    unfold Rmin. destruct (Rle_dec d1 d2); nra.
Qed.

Lemma distance_symmetric_bounded_witness :
  Quaternion.distance Quaternion.unit (Quaternion.__neg__ Quaternion.unit) <= sqrt 2.
Proof.
  apply (proj2 (proj2 (proj2
           (distance_symmetric_bounded Quaternion.unit
              (Quaternion.__neg__ Quaternion.unit))))).
  - exact unit_is_unitary.
  - unfold Quaternion.is_unitary, Quaternion.__neg__, GeneralQuaternion.__neg__,
      GeneralQuaternion.norm, GeneralQuaternion.coordinates, Quaternion.unit.
    cbn [Quaternion.super GeneralQuaternion.qr GeneralQuaternion.qi
         GeneralQuaternion.qj GeneralQuaternion.qk].
    rewrite norm4_opp. exact unit_is_unitary.
Defined.

Lemma euclidean_distance_zero (p q : GeneralQuaternion.t) :
  GeneralQuaternion.euclidean_distance p q = 0 <-> p = q.
Proof.
  split.
  - destruct p as [a b c d], q as [a' b' c' d'].
    unfold GeneralQuaternion.euclidean_distance, GeneralQuaternion.norm,
      GeneralQuaternion.__sub__, GeneralQuaternion.coordinates.
    cbn [GeneralQuaternion.qr GeneralQuaternion.qi GeneralQuaternion.qj GeneralQuaternion.qk].
    intros H. apply norm4_zero_inv in H. destruct H as (Ha & Hb & Hc & Hd).
    f_equal; lra.
  - intros ->. apply euclidean_distance_refl.
Qed.

(** X11: the distance of two quaternions is zero exactly when they are
    equal or opposite. *)
Theorem distance_zero_iff (p q : Quaternion.t) :
  Quaternion.distance p q = 0 <-> p = q \/ p = Quaternion.__neg__ q.
Proof.
  unfold Quaternion.distance.
  set (d1 := GeneralQuaternion.euclidean_distance _ _).
  set (d2 := GeneralQuaternion.euclidean_distance _ _).
  assert (0 <= d1) as H1 by apply euclidean_distance_nonneg.
  assert (0 <= d2) as H2 by apply euclidean_distance_nonneg.
  assert (d1 = 0 <-> p = q) as E1.
  { unfold d1. rewrite euclidean_distance_zero.
    destruct p as [g], q as [g']. cbn [Quaternion.super].
    split; [now intros -> | now intros [= ->]]. }
  assert (d2 = 0 <-> p = Quaternion.__neg__ q) as E2.
  { unfold d2. rewrite euclidean_distance_zero.
    destruct p as [g], q as [g']. unfold Quaternion.__neg__. cbn [Quaternion.super].
    split; [now intros -> | now intros [= ->]]. }
  rewrite <- E1, <- E2. unfold Rmin.
  destruct (Rle_dec d1 d2); split; intros H;
    first [ destruct H; lra | now left | now right ].
Qed.

(** ** Further properties of the positive representant *)

Lemma first_nonzero_none (coords : list R) :
  Quaternion.first_nonzero coords = None <-> Forall (fun x => x = 0) coords.
Proof.
  induction coords as [|x rest IH]; simpl.
  - split; [constructor | reflexivity].
  - destruct (Req_dec_T x 0) as [Hz | Hnz].
    + rewrite IH. split; [now constructor | now inversion 1].
    + split; [discriminate | inversion 1; contradiction].
Qed.

Lemma positive_representant_loop_none (self : Quaternion.t) (coords : list R) :
  Quaternion.positive_representant_loop self coords = None
  <-> Quaternion.first_nonzero coords = None.
Proof.
  induction coords as [|x rest IH]; simpl; [tauto|].
  destruct (Rlt_dec 0 x), (Rlt_dec x 0), (Req_dec_T x 0);
    try lra; try (split; discriminate); exact IH.
Qed.

(** X12: [positive_representant] falls off its loop and returns [None]
    exactly for the quaternion with four zero coordinates. *)
Theorem positive_representant_none_iff (q : Quaternion.t) :
  Quaternion.positive_representant q = None
  <-> q = Quaternion.instance (GeneralQuaternion.make 0 0 0 0).
Proof.
  unfold Quaternion.positive_representant.
  rewrite positive_representant_loop_none, first_nonzero_none.
  destruct q as [[a b c d]]. quaternion_unfold. split.
  - intros H. inversion H as [|? ? Ha H']; subst.
    inversion H' as [|? ? Hb H'']; subst.
    inversion H'' as [|? ? Hc H''']; subst.
    inversion H''' as [|? ? Hd _]; subst. reflexivity.
  - intros [= -> -> -> ->]. repeat constructor.
Qed.

Lemma first_nonzero_opp (coords : list R) :
  Quaternion.first_nonzero (map Ropp coords)
  = option_map Ropp (Quaternion.first_nonzero coords).
Proof.
  induction coords as [|x rest IH]; simpl; [reflexivity|].
  destruct (Req_dec_T (- x) 0), (Req_dec_T x 0); try lra; [exact IH | reflexivity].
Qed.

Lemma coordinates_neg (q : Quaternion.t) :
  Quaternion.coordinates (Quaternion.__neg__ q) = map Ropp (Quaternion.coordinates q).
Proof. destruct q as [[a b c d]]. reflexivity. Qed.

(** X13: for a unit quaternion, [positive_representant] returns the
    quaternion or its negation, returns the same value for the quaternion
    and for its negation, and returns its own result unchanged. *)
Theorem positive_representant_canonical (q : Quaternion.t)
    (Hq : Quaternion.is_unitary q) :
  exists r,
    Quaternion.positive_representant q = Some r
    /\ (r = q \/ r = Quaternion.__neg__ q)
    /\ Quaternion.positive_representant (Quaternion.__neg__ q) = Some r
    /\ Quaternion.positive_representant r = Some r.
Proof.
  destruct (unitary_first_nonzero q Hq) as [c Hc].
  pose proof (first_nonzero_nonzero _ _ Hc) as Hnz.
  pose proof (positive_representant_loop_first_nonzero q _ c Hc) as Hpos.
  assert (Quaternion.first_nonzero (Quaternion.coordinates (Quaternion.__neg__ q))
          = Some (- c)) as Hc'.
  { now rewrite coordinates_neg, first_nonzero_opp, Hc. }
  pose proof (positive_representant_loop_first_nonzero (Quaternion.__neg__ q) _ (- c) Hc')
    as Hneg.
  fold (Quaternion.positive_representant q) in Hpos.
  fold (Quaternion.positive_representant (Quaternion.__neg__ q)) in Hneg.
  rewrite neg_involutive in Hneg.
  destruct (Rlt_dec 0 c) as [Hc0 | Hc0]; destruct (Rlt_dec 0 (- c)) as [Hc1 | Hc1];
    try lra.
  - exists q. repeat split; auto.
  - exists (Quaternion.__neg__ q). repeat split; auto.
Qed.

Lemma positive_representant_canonical_witness :
  exists r,
    Quaternion.positive_representant Quaternion.unit = Some r
    /\ (r = Quaternion.unit \/ r = Quaternion.__neg__ Quaternion.unit)
    /\ Quaternion.positive_representant (Quaternion.__neg__ Quaternion.unit) = Some r
    /\ Quaternion.positive_representant r = Some r.
Proof. apply (positive_representant_canonical Quaternion.unit). exact unit_is_unitary. Defined.

(** ** [from_matrix] on an arbitrary matrix *)

Lemma of_array_large (tol x0 x1 x2 x3 : R) :
  tol <= 1 / 2 ->
  1 / 4 <= x0 * x0 \/ 1 / 4 <= x1 * x1 \/ 1 / 4 <= x2 * x2 \/ 1 / 4 <= x3 * x3 ->
  exists q, Quaternion.of_array tol [x0; x1; x2; x3] = Ok q /\ Quaternion.is_unitary q.
Proof.
  intros Htol Hbig.
  pose proof (norm_nonneg [x0; x1; x2; x3]) as Hn0.
  pose proof (norm_sqr [x0; x1; x2; x3]) as Hn2. simpl in Hn2.
  assert (1 / 2 <= np.norm [x0; x1; x2; x3]) as Hn.
  { destruct Hbig as [H | [H | [H | H]]]; nra. }
  eexists. split.
  - unfold Quaternion.of_array. apply init_returns. lra.
  - unfold Quaternion.is_unitary, GeneralQuaternion.norm, GeneralQuaternion.coordinates.
    cbn [Quaternion.super GeneralQuaternion.qr GeneralQuaternion.qi
         GeneralQuaternion.qj GeneralQuaternion.qk].
    apply norm4_normalized. lra.
Qed.

Lemma sqrt_times_one_sqr (x : R) : 0 <= x -> sqrt x * 1 * (sqrt x * 1) = x.
Proof. intros Hx. rewrite Rmult_1_r. now apply sqrt_sqrt. Qed.

(** X14: whatever the 3x3 matrix, [from_matrix] returns a unit quaternion
    and never raises the instability error, as long as the threshold is at
    most one half: the four clipped squares sum to at least one, so the
    largest is at least a quarter and its root is kept with sign one. *)
Theorem from_matrix_never_raises (tol : R) (mat : np.matrix 3 3) (Htol : tol <= 1 / 2) :
  exists q, Quaternion.from_matrix tol mat = Ok q /\ Quaternion.is_unitary q.
Proof.
  destruct mat as [f]. unfold Quaternion.from_matrix.
  unfold Quaternion.from_matrix_qsquare. np_unfold.
  set (A := Rmax 0 _). set (B := Rmax 0 _). set (C := Rmax 0 _). set (D := Rmax 0 _).
  assert (0 <= A /\ 0 <= B /\ 0 <= C /\ 0 <= D) as (HA & HB & HC & HD)
    by (repeat split; apply Rmax_l).
  assert (1 <= A + B + C + D) as Hsum.
  { unfold A, B, C, D, Rmax. repeat destruct (Rle_dec _ _); lra. }
  destruct (argmax4 A B C D)
    as [(-> & H1 & H2 & H3) | [(-> & H1 & H2 & H3) | [(-> & H1 & H2 & H3) | (-> & H1 & H2 & H3)]]];
    unfold Quaternion.from_matrix_signs_m; np_unfold; apply of_array_large; try exact Htol.
  - left. rewrite sqrt_times_one_sqr by assumption. lra.
  - right; left. rewrite sqrt_times_one_sqr by assumption. lra.
  - right; right; left. rewrite sqrt_times_one_sqr by assumption. lra.
  - right; right; right. rewrite sqrt_times_one_sqr by assumption. lra.
Qed.

Lemma from_matrix_never_raises_witness :
  exists q,
    Quaternion.from_matrix (1 / 100000000) (np.zeros 3 3) = Ok q /\ Quaternion.is_unitary q.
Proof. apply (from_matrix_never_raises (1 / 100000000) (np.zeros 3 3)). lra. Defined.

(** ** Range of [arctan2] *)

Lemma atan_pos (x : R) : 0 < x -> 0 < atan x.
Proof. intros H. rewrite <- atan_0. now apply atan_increasing. Qed.

Lemma atan_neg (x : R) : x < 0 -> atan x < 0.
Proof. intros H. rewrite <- atan_0. now apply atan_increasing. Qed.

Lemma div_pos_neg (y x : R) : 0 < y -> x < 0 -> y / x < 0.
Proof.
  intros Hy Hx. unfold Rdiv.
  pose proof (Rinv_lt_0_compat x Hx). nra.
Qed.

Lemma div_neg_neg (y x : R) : y < 0 -> x < 0 -> 0 < y / x.
Proof.
  intros Hy Hx. unfold Rdiv.
  pose proof (Rinv_lt_0_compat x Hx). nra.
Qed.

Lemma arctan2_range (y x : R) : - PI < np.arctan2 y x <= PI.
Proof.
  pose proof PI_RGT_0 as Hpi. unfold np.arctan2.
  destruct (Rlt_dec 0 x) as [Hx | Hx].
  - pose proof (atan_bound (y / x)). lra.
  - destruct (Rlt_dec x 0) as [Hx' | Hx'].
    + destruct (Rle_dec 0 y) as [Hy | Hy].
      * pose proof (atan_bound (y / x)) as Hb.
        destruct (Req_dec_T y 0) as [-> | Hy0].
        -- unfold Rdiv. rewrite Rmult_0_l, atan_0. lra.
        -- assert (y / x < 0) by (apply div_pos_neg; lra).
           pose proof (atan_neg _ H). lra.
      * pose proof (atan_bound (y / x)) as Hb.
        assert (0 < y / x) by (apply div_neg_neg; lra).
        pose proof (atan_pos _ H). lra.
    + destruct (Rlt_dec 0 y); [lra|]. destruct (Rlt_dec y 0); lra.
Qed.

Lemma arctan2_range_right (y x : R) : 0 <= x -> - (PI / 2) <= np.arctan2 y x <= PI / 2.
Proof.
  intros Hx0. pose proof PI_RGT_0 as Hpi. unfold np.arctan2.
  destruct (Rlt_dec 0 x) as [Hx | Hx].
  - pose proof (atan_bound (y / x)). lra.
  - destruct (Rlt_dec x 0) as [Hx' | Hx']; [lra|].
    destruct (Rlt_dec 0 y); [lra|]. destruct (Rlt_dec y 0); lra.
Qed.

Lemma arctan2_range_upper (y x : R) : 0 < y -> 0 < np.arctan2 y x < PI.
Proof.
  intros Hy. pose proof PI_RGT_0 as Hpi. unfold np.arctan2.
  destruct (Rlt_dec 0 x) as [Hx | Hx].
  - pose proof (atan_bound (y / x)) as Hb.
    assert (0 < y / x) by (apply Rdiv_lt_0_compat; assumption).
    pose proof (atan_pos _ H). lra.
  - destruct (Rlt_dec x 0) as [Hx' | Hx'].
    + destruct (Rle_dec 0 y) as [_ | Hy']; [| lra].
      pose proof (atan_bound (y / x)) as Hb.
      assert (y / x < 0) by (apply div_pos_neg; lra).
      pose proof (atan_neg _ H). lra.
    + destruct (Rlt_dec 0 y); lra.
Qed.

(** ** Logarithm, rotation vector, angle and axis *)

Lemma norm3_scale (a b c k : R) :
  np.norm [a * k; b * k; c * k] = np.norm [a; b; c] * Rabs k.
Proof.
  unfold np.norm.
  replace (np.sum_squares [a * k; b * k; c * k])
    with (np.sum_squares [a; b; c] * (k * k)) by (simpl; ring).
  rewrite sqrt_mult.
  - now rewrite sqrt_sqr_abs.
  - apply sum_squares_nonneg.
  - nra.
Qed.

Lemma list3_ext (x1 x2 x3 y1 y2 y3 : R) :
  x1 = y1 -> x2 = y2 -> x3 = y3 -> [x1; x2; x3] = [y1; y2; y3].
Proof. intros -> -> ->. reflexivity. Qed.

(** The logarithm of a unit quaternion whose imaginary part is not zero. *)
Lemma log_unitary_imaginary (q : Quaternion.t) :
  Quaternion.is_unitary q ->
  np.norm [Quaternion.qi q; Quaternion.qj q; Quaternion.qk q] <> 0 ->
  Quaternion.log q
  = GeneralQuaternion.make 0
      (Quaternion.qi q / np.norm [Quaternion.qi q; Quaternion.qj q; Quaternion.qk q]
       * np.arctan2 (np.norm [Quaternion.qi q; Quaternion.qj q; Quaternion.qk q])
                    (Quaternion.qr q))
      (Quaternion.qj q / np.norm [Quaternion.qi q; Quaternion.qj q; Quaternion.qk q]
       * np.arctan2 (np.norm [Quaternion.qi q; Quaternion.qj q; Quaternion.qk q])
                    (Quaternion.qr q))
      (Quaternion.qk q / np.norm [Quaternion.qi q; Quaternion.qj q; Quaternion.qk q]
       * np.arctan2 (np.norm [Quaternion.qi q; Quaternion.qj q; Quaternion.qk q])
                    (Quaternion.qr q)).
Proof.
  intros Hq Hs. unfold Quaternion.log.
  unfold Quaternion.is_unitary in Hq. rewrite Hq. cbn [map].
  replace (Quaternion.qi q / 1) with (Quaternion.qi q) by field.
  replace (Quaternion.qj q / 1) with (Quaternion.qj q) by field.
  replace (Quaternion.qk q / 1) with (Quaternion.qk q) by field.
  replace (Quaternion.qr q / 1) with (Quaternion.qr q) by field.
  destruct (Req_dec_T _ 0) as [Hz | _]; [contradiction|].
  rewrite ln_1. reflexivity.
Qed.

Lemma sqrt_one_plus_sqr_div (y x : R) :
  x <> 0 -> x * x + y * y = 1 -> sqrt (1 + (y / x)²) = / Rabs x.
Proof.
  intros Hx Hxy.
  assert (0 < Rabs x) as Habs by now apply Rabs_pos_lt.
  replace (1 + (y / x)²) with ((/ Rabs x)²).
  - apply sqrt_Rsqr. left. now apply Rinv_0_lt_compat.
  - unfold Rsqr.
    assert (Rabs x * Rabs x = x * x) as Hsq.
    { unfold Rabs. destruct (Rcase_abs x); ring. }
    transitivity (/ (Rabs x * Rabs x)); [field; lra|].
    rewrite Hsq. transitivity ((x * x + y * y) / (x * x)); [rewrite Hxy; field; nra|].
    field. exact Hx.
Qed.

(** On the unit circle [arctan2 y x] is the angle of the point [(x, y)]. *)
Lemma arctan2_polar (y x : R) :
  0 < y -> x * x + y * y = 1 ->
  cos (np.arctan2 y x) = x /\ sin (np.arctan2 y x) = y.
Proof.
  intros Hy Hxy. unfold np.arctan2.
  destruct (Rlt_dec 0 x) as [Hx | Hx].
  - rewrite cos_atan, sin_atan, sqrt_one_plus_sqr_div by (assumption || lra).
    rewrite Rabs_right by lra. split; field; lra.
  - destruct (Rlt_dec x 0) as [Hx' | Hx'].
    + destruct (Rle_dec 0 y) as [_ | Hy']; [| lra].
      rewrite neg_cos, neg_sin, cos_atan, sin_atan, sqrt_one_plus_sqr_div
        by (assumption || lra).
      rewrite Rabs_left by lra. split; field; lra.
    + assert (x = 0) as -> by lra.
      destruct (Rlt_dec 0 y) as [_ | Hy']; [| lra].
      rewrite cos_PI2, sin_PI2. split; [reflexivity | nra].
Qed.

Lemma imaginary_norm_sqr (q : Quaternion.t) :
  Quaternion.is_unitary q ->
  Quaternion.qr q * Quaternion.qr q
  + np.norm [Quaternion.qi q; Quaternion.qj q; Quaternion.qk q]
    * np.norm [Quaternion.qi q; Quaternion.qj q; Quaternion.qk q] = 1.
Proof.
  intros Hq. pose proof (unitary_sum_squares q Hq) as Hsum.
  rewrite norm_sqr. simpl. lra.
Qed.

(** X15: the logarithm of a unit quaternion whose imaginary part [v] is not
    zero has scalar part zero and imaginary part [v / |v|] times the half
    angle [theta = arctan2(|v|, qr)]; this angle lies strictly between zero
    and pi, its cosine is [qr] and its sine is [|v|]. *)
Theorem log_half_angle (q : Quaternion.t)
    (Hq : Quaternion.is_unitary q)
    (Hs : np.norm [Quaternion.qi q; Quaternion.qj q; Quaternion.qk q] <> 0) :
  let s := np.norm [Quaternion.qi q; Quaternion.qj q; Quaternion.qk q] in
  let theta := np.arctan2 s (Quaternion.qr q) in
  Quaternion.log q
  = GeneralQuaternion.make 0 (Quaternion.qi q / s * theta)
      (Quaternion.qj q / s * theta) (Quaternion.qk q / s * theta)
  /\ 0 < theta < PI
  /\ cos theta = Quaternion.qr q
  /\ sin theta = s.
Proof.
  intros s theta.
  assert (0 < s) as Hpos.
  { pose proof (norm_nonneg [Quaternion.qi q; Quaternion.qj q; Quaternion.qk q]).
    unfold s. lra. }
  split; [now apply log_unitary_imaginary|].
  split; [now apply arctan2_range_upper|].
  apply arctan2_polar; [exact Hpos|]. now apply imaginary_norm_sqr.
Qed.

(** The quaternion (0, 1, 0, 0), a half turn about the first axis. *)
Lemma half_turn_is_unitary :
  Quaternion.is_unitary (Quaternion.instance (GeneralQuaternion.make 0 1 0 0)).
Proof.
  unfold Quaternion.is_unitary, GeneralQuaternion.norm, GeneralQuaternion.coordinates.
  cbn [Quaternion.super GeneralQuaternion.qr GeneralQuaternion.qi
       GeneralQuaternion.qj GeneralQuaternion.qk].
  apply norm4_of_sum. ring.
Qed.

Lemma half_turn_imaginary_norm :
  np.norm [Quaternion.qi (Quaternion.instance (GeneralQuaternion.make 0 1 0 0));
           Quaternion.qj (Quaternion.instance (GeneralQuaternion.make 0 1 0 0));
           Quaternion.qk (Quaternion.instance (GeneralQuaternion.make 0 1 0 0))] = 1.
Proof.
  quaternion_unfold. unfold np.norm, np.sum_squares, fold_right.
  replace (1 * 1 + (0 * 0 + (0 * 0 + 0))) with 1 by ring. apply sqrt_1.
Qed.

Lemma log_half_angle_witness :
  let q := Quaternion.instance (GeneralQuaternion.make 0 1 0 0) in
  let s := np.norm [Quaternion.qi q; Quaternion.qj q; Quaternion.qk q] in
  let theta := np.arctan2 s (Quaternion.qr q) in
  Quaternion.log q
  = GeneralQuaternion.make 0 (Quaternion.qi q / s * theta)
      (Quaternion.qj q / s * theta) (Quaternion.qk q / s * theta)
  /\ 0 < theta < PI
  /\ cos theta = Quaternion.qr q
  /\ sin theta = s.
Proof.
  apply (log_half_angle (Quaternion.instance (GeneralQuaternion.make 0 1 0 0))).
  - exact half_turn_is_unitary.
  - rewrite half_turn_imaginary_norm. lra.
Defined.

Lemma log_unitary_real (q : Quaternion.t) :
  Quaternion.is_unitary q ->
  np.norm [Quaternion.qi q; Quaternion.qj q; Quaternion.qk q] = 0 ->
  Quaternion.log q
  = GeneralQuaternion.make 0 (if Rlt_dec 0 (Quaternion.qr q) then 0 else PI) 0 0.
Proof.
  intros Hq Hs. unfold Quaternion.log.
  unfold Quaternion.is_unitary in Hq. rewrite Hq. cbn [map].
  replace (Quaternion.qi q / 1) with (Quaternion.qi q) by field.
  replace (Quaternion.qj q / 1) with (Quaternion.qj q) by field.
  replace (Quaternion.qk q / 1) with (Quaternion.qk q) by field.
  destruct (Req_dec_T _ 0) as [_ | Hnz]; [| contradiction].
  rewrite ln_1. reflexivity.
Qed.

Lemma rotation_vector_imaginary (q : Quaternion.t) :
  Quaternion.is_unitary q ->
  np.norm [Quaternion.qi q; Quaternion.qj q; Quaternion.qk q] <> 0 ->
  Quaternion.rotation_vector q
  = [Quaternion.qi q
     * (2 * np.arctan2 (np.norm [Quaternion.qi q; Quaternion.qj q; Quaternion.qk q])
                       (Quaternion.qr q)
        / np.norm [Quaternion.qi q; Quaternion.qj q; Quaternion.qk q]);
     Quaternion.qj q
     * (2 * np.arctan2 (np.norm [Quaternion.qi q; Quaternion.qj q; Quaternion.qk q])
                       (Quaternion.qr q)
        / np.norm [Quaternion.qi q; Quaternion.qj q; Quaternion.qk q]);
     Quaternion.qk q
     * (2 * np.arctan2 (np.norm [Quaternion.qi q; Quaternion.qj q; Quaternion.qk q])
                       (Quaternion.qr q)
        / np.norm [Quaternion.qi q; Quaternion.qj q; Quaternion.qk q])].
Proof.
  intros Hq Hs. unfold Quaternion.rotation_vector.
  rewrite (log_unitary_imaginary q Hq Hs).
  unfold GeneralQuaternion.scalar_mul, GeneralQuaternion.coordinates.
  cbn [GeneralQuaternion.qr GeneralQuaternion.qi GeneralQuaternion.qj GeneralQuaternion.qk tl].
  apply list3_ext; field; exact Hs.
Qed.

Lemma rotation_angle_imaginary (q : Quaternion.t) :
  Quaternion.is_unitary q ->
  np.norm [Quaternion.qi q; Quaternion.qj q; Quaternion.qk q] <> 0 ->
  Quaternion.rotation_angle q
  = 2 * np.arctan2 (np.norm [Quaternion.qi q; Quaternion.qj q; Quaternion.qk q])
                   (Quaternion.qr q).
Proof.
  intros Hq Hs. unfold Quaternion.rotation_angle.
  rewrite (rotation_vector_imaginary q Hq Hs), norm3_scale.
  set (s := np.norm [Quaternion.qi q; Quaternion.qj q; Quaternion.qk q]) in *.
  assert (0 < s) as Hpos.
  { pose proof (norm_nonneg [Quaternion.qi q; Quaternion.qj q; Quaternion.qk q]) as H.
    fold s in H. lra. }
  pose proof (arctan2_range_upper s (Quaternion.qr q) Hpos) as Ht.
  rewrite Rabs_right.
  - field. lra.
  - apply Rle_ge. apply Rmult_le_pos; [lra|]. left. now apply Rinv_0_lt_compat.
Qed.

Lemma norm3_axis (x : R) : np.norm [x; 0 * 2; 0 * 2] = Rabs x.
Proof.
  unfold np.norm, np.sum_squares, fold_right.
  replace (x * x + (0 * 2 * (0 * 2) + (0 * 2 * (0 * 2) + 0))) with (x * x) by ring.
  apply sqrt_sqr_abs.
Qed.

(** X16: the rotation angle of a unit quaternion lies between zero and two
    pi; when the imaginary part [v] is not zero it is twice
    [arctan2(|v|, qr)], so the cosine of half the angle is [qr]. *)
Theorem rotation_angle_range (q : Quaternion.t) (Hq : Quaternion.is_unitary q) :
  0 <= Quaternion.rotation_angle q <= 2 * PI
  /\ (np.norm [Quaternion.qi q; Quaternion.qj q; Quaternion.qk q] <> 0 ->
      Quaternion.rotation_angle q
      = 2 * np.arctan2 (np.norm [Quaternion.qi q; Quaternion.qj q; Quaternion.qk q])
                       (Quaternion.qr q)
      /\ 0 < Quaternion.rotation_angle q < 2 * PI
      /\ cos (Quaternion.rotation_angle q / 2) = Quaternion.qr q).
Proof.
  pose proof PI_RGT_0 as Hpi.
  set (s := np.norm [Quaternion.qi q; Quaternion.qj q; Quaternion.qk q]).
  assert (s <> 0 ->
          Quaternion.rotation_angle q = 2 * np.arctan2 s (Quaternion.qr q)
          /\ 0 < Quaternion.rotation_angle q < 2 * PI
          /\ cos (Quaternion.rotation_angle q / 2) = Quaternion.qr q) as Himag.
  { intros Hs.
    assert (0 < s) as Hpos.
    { pose proof (norm_nonneg [Quaternion.qi q; Quaternion.qj q; Quaternion.qk q]).
      unfold s in *. lra. }
    pose proof (arctan2_range_upper s (Quaternion.qr q) Hpos) as Ht.
    pose proof (arctan2_polar s (Quaternion.qr q) Hpos (imaginary_norm_sqr q Hq)) as [Hc _].
    rewrite (rotation_angle_imaginary q Hq Hs). fold s.
    split; [reflexivity|]. split; [lra|].
    replace (2 * np.arctan2 s (Quaternion.qr q) / 2) with (np.arctan2 s (Quaternion.qr q))
      by field.
    exact Hc. }
  split; [| exact Himag].
  destruct (Req_dec_T s 0) as [Hz | Hnz].
  - unfold Quaternion.rotation_angle, Quaternion.rotation_vector.
    rewrite (log_unitary_real q Hq Hz).
    unfold GeneralQuaternion.scalar_mul, GeneralQuaternion.coordinates.
    cbn [GeneralQuaternion.qr GeneralQuaternion.qi GeneralQuaternion.qj
         GeneralQuaternion.qk tl].
    rewrite norm3_axis.
    destruct (Rlt_dec 0 (Quaternion.qr q)).
    + rewrite Rmult_0_l, Rabs_R0. lra.
    + rewrite Rabs_right by lra. lra.
  - destruct (Himag Hnz) as (_ & H & _). lra.
Qed.

Lemma rotation_angle_range_witness :
  0 <= Quaternion.rotation_angle Quaternion.unit <= 2 * PI
  /\ (np.norm [Quaternion.qi Quaternion.unit; Quaternion.qj Quaternion.unit;
               Quaternion.qk Quaternion.unit] <> 0 ->
      Quaternion.rotation_angle Quaternion.unit
      = 2 * np.arctan2 (np.norm [Quaternion.qi Quaternion.unit; Quaternion.qj Quaternion.unit;
                                 Quaternion.qk Quaternion.unit])
                       (Quaternion.qr Quaternion.unit)
      /\ 0 < Quaternion.rotation_angle Quaternion.unit < 2 * PI
      /\ cos (Quaternion.rotation_angle Quaternion.unit / 2) = Quaternion.qr Quaternion.unit).
Proof. apply (rotation_angle_range Quaternion.unit). exact unit_is_unitary. Defined.

(** X17: for a unit quaternion whose imaginary part [v] is not zero, the
    rotation axis is [v / |v|], a vector of norm one, and the rotation
    vector is the axis scaled by the rotation angle. *)
Theorem rotation_axis_normalized (q : Quaternion.t)
    (Hq : Quaternion.is_unitary q)
    (Hs : np.norm [Quaternion.qi q; Quaternion.qj q; Quaternion.qk q] <> 0) :
  let s := np.norm [Quaternion.qi q; Quaternion.qj q; Quaternion.qk q] in
  Quaternion.rotation_axis q = [Quaternion.qi q / s; Quaternion.qj q / s; Quaternion.qk q / s]
  /\ np.norm (Quaternion.rotation_axis q) = 1
  /\ Quaternion.rotation_vector q
     = map (Rmult (Quaternion.rotation_angle q)) (Quaternion.rotation_axis q).
Proof.
  intros s.
  assert (0 < s) as Hpos.
  { pose proof (norm_nonneg [Quaternion.qi q; Quaternion.qj q; Quaternion.qk q]).
    unfold s. lra. }
  pose proof (arctan2_range_upper s (Quaternion.qr q) Hpos) as Ht.
  assert (Quaternion.rotation_axis q
          = [Quaternion.qi q / s; Quaternion.qj q / s; Quaternion.qk q / s]) as Haxis.
  { unfold Quaternion.rotation_axis.
    fold (Quaternion.rotation_angle q).
    rewrite (rotation_angle_imaginary q Hq Hs), (rotation_vector_imaginary q Hq Hs).
    fold s. cbn [map]. apply list3_ext; field; lra. }
  split; [exact Haxis|]. split.
  - rewrite Haxis. unfold Rdiv. rewrite norm3_scale. fold s.
    rewrite Rabs_right; [field; lra|]. left. now apply Rinv_0_lt_compat.
  - rewrite Haxis, (rotation_angle_imaginary q Hq Hs), (rotation_vector_imaginary q Hq Hs).
    fold s. cbn [map]. apply list3_ext; field; lra.
Qed.

Lemma rotation_axis_normalized_witness :
  let q := Quaternion.instance (GeneralQuaternion.make 0 1 0 0) in
  let s := np.norm [Quaternion.qi q; Quaternion.qj q; Quaternion.qk q] in
  Quaternion.rotation_axis q = [Quaternion.qi q / s; Quaternion.qj q / s; Quaternion.qk q / s]
  /\ np.norm (Quaternion.rotation_axis q) = 1
  /\ Quaternion.rotation_vector q
     = map (Rmult (Quaternion.rotation_angle q)) (Quaternion.rotation_axis q).
Proof.
  apply (rotation_axis_normalized (Quaternion.instance (GeneralQuaternion.make 0 1 0 0))).
  - exact half_turn_is_unitary.
  - rewrite half_turn_imaginary_norm. lra.
Defined.

(** ** Right ascension, declination and roll *)

Lemma rad2deg_lt (a b : R) : a < b -> np.rad2deg a < np.rad2deg b.
Proof.
  intros H. unfold np.rad2deg, Rdiv.
  pose proof (Rinv_0_lt_compat PI PI_RGT_0). nra.
Qed.

Lemma rad2deg_le (a b : R) : a <= b -> np.rad2deg a <= np.rad2deg b.
Proof.
  intros H. unfold np.rad2deg, Rdiv.
  pose proof (Rinv_0_lt_compat PI PI_RGT_0). nra.
Qed.

Lemma rad2deg_PI : np.rad2deg PI = 180.
Proof. unfold np.rad2deg. field. pose proof PI_RGT_0. lra. Qed.

Lemma rad2deg_opp_PI : np.rad2deg (- PI) = -180.
Proof. unfold np.rad2deg. field. pose proof PI_RGT_0. lra. Qed.

Lemma rad2deg_PI2 : np.rad2deg (PI / 2) = 90.
Proof. unfold np.rad2deg. field. pose proof PI_RGT_0. lra. Qed.

Lemma rad2deg_opp_PI2 : np.rad2deg (- (PI / 2)) = -90.
Proof. unfold np.rad2deg. field. pose proof PI_RGT_0. lra. Qed.

Lemma arctan2_signed_range (negative_zero : bool) (y x : R) :
  - PI <= np.arctan2_signed negative_zero y x <= PI.
Proof.
  pose proof PI_RGT_0 as Hpi. pose proof (arctan2_range y x) as H.
  unfold np.arctan2_signed.
  destruct negative_zero; [| lra].
  destruct (Req_dec_T y 0); [| lra]. destruct (Rlt_dec x 0); lra.
Qed.

Lemma rad2deg_arctan2_signed (negative_zero : bool) (y x : R) :
  -180 <= np.rad2deg (np.arctan2_signed negative_zero y x) <= 180.
Proof.
  pose proof (arctan2_signed_range negative_zero y x) as [Hl Hu].
  apply rad2deg_le in Hl. apply rad2deg_le in Hu.
  rewrite rad2deg_opp_PI in Hl. rewrite rad2deg_PI in Hu. lra.
Qed.

Lemma rad2deg_arctan2_right (y x : R) :
  0 <= x -> -90 <= np.rad2deg (np.arctan2 y x) <= 90.
Proof.
  intros Hx. pose proof (arctan2_range_right y x Hx) as [Hl Hu].
  apply rad2deg_le in Hl. apply rad2deg_le in Hu.
  rewrite rad2deg_opp_PI2 in Hl. rewrite rad2deg_PI2 in Hu. lra.
Qed.

(** The half turn about the second axis, Quaternion(0, 0, 1, 0): the matrix
    entries m[0][1] and m[1][2] are positive zeros, their negations are
    negative zeros left of the origin, and right ascension and roll are -180. *)
Example ra_dec_roll_half_turn :
  Quaternion.ra_dec_roll true true (Quaternion.instance (GeneralQuaternion.make 0 0 1 0))
  = [-180; 0; -180].
Proof.
  unfold Quaternion.ra_dec_roll. quaternion_unfold. np_unfold.
  replace (- (2 * (0 * 1 + 0 * 0))) with 0 by ring.
  replace (- (2 * (1 * 0 + 0 * 0))) with 0 by ring.
  replace (0 * 0 + 0 * 0 - 1 * 1 - 0 * 0) with (-1) by ring.
  replace (0 * 0 - 0 * 0 - 1 * 1 + 0 * 0) with (-1) by ring.
  replace (2 * (0 * 0 - 0 * 1)) with 0 by ring.
  replace ((2 * (1 * 0 + 0 * 0)) ^ 2 + (-1) ^ 2) with 1 by ring.
  rewrite sqrt_1.
  unfold np.arctan2_signed, np.arctan2.
  destruct (Req_dec_T 0 0) as [_ | H]; [| now contradiction H].
  destruct (Rlt_dec (-1) 0) as [_ | H]; [| lra].
  destruct (Rlt_dec 0 1) as [_ | H]; [| lra].
  unfold Rdiv at 1. rewrite Rmult_0_l, atan_0.
  apply list3_ext; [apply rad2deg_opp_PI | unfold np.rad2deg; field; apply PI_neq0
                   | apply rad2deg_opp_PI].
Qed.

(** X18: [ra_dec_roll] returns three angles in degrees: right ascension and
    roll in [-180, 180], both ends included (-180 is returned when the first
    argument of [arctan2] is a negative zero left of the origin), and
    declination in [-90, 90]. *)
Theorem ra_dec_roll_ranges (negative_zero_ra negative_zero_roll : bool) (q : Quaternion.t) :
  exists ra dec roll,
    Quaternion.ra_dec_roll negative_zero_ra negative_zero_roll q = [ra; dec; roll]
    /\ -180 <= ra <= 180 /\ -90 <= dec <= 90 /\ -180 <= roll <= 180.
Proof.
  unfold Quaternion.ra_dec_roll. cbn [map].
  do 3 eexists. split; [reflexivity|].
  split; [apply rad2deg_arctan2_signed|]. split; [| apply rad2deg_arctan2_signed].
  apply rad2deg_arctan2_right, sqrt_pos.
Qed.

Lemma optical_axis_first_unitary (tol : R) :
  tol <= 1 ->
  exists o, Quaternion.OpticalAxisFirst tol = Ok o /\ Quaternion.is_unitary o.
Proof.
  intros Htol.
  assert (np.norm [1 / 2; 1 / 2; - (1 / 2); 1 / 2] = 1) as Hn
    by (apply norm4_of_sum; field).
  eexists. split.
  - unfold Quaternion.OpticalAxisFirst. now apply init_unit_norm.
  - exact Hn.
Qed.

(** X19: on a unit quaternion, with a threshold of at most one,
    [astrometry_ra_dec_roll] never raises; it reports a right ascension in
    [-180, 180], a declination in [-90, 90] and a roll in [-360, 0], ends
    included. *)
Theorem astrometry_ra_dec_roll_ranges (tol : R) (negative_zero_ra negative_zero_roll : bool)
    (q : Quaternion.t) (Htol : tol <= 1) (Hq : Quaternion.is_unitary q) :
  exists ra dec roll,
    Quaternion.astrometry_ra_dec_roll tol negative_zero_ra negative_zero_roll q
    = Ok [ra; dec; roll]
    /\ -180 <= ra <= 180 /\ -90 <= dec <= 90 /\ -360 <= roll <= 0.
Proof.
  destruct (optical_axis_first_unitary tol Htol) as (o & Ho & Hou).
  destruct (mul_quaternion_unitary tol o q Htol Hou Hq) as (t & Ht & _ & _).
  unfold Quaternion.astrometry_ra_dec_roll. rewrite Ho. simpl bind. rewrite Ht. simpl bind.
  unfold Quaternion.ra_dec_roll. cbn [map].
  do 3 eexists. split; [reflexivity|].
  split; [| split].
  - match goal with |- _ <= - np.rad2deg (np.arctan2_signed ?z ?y ?x) <= _ =>
      pose proof (rad2deg_arctan2_signed z y x) end. lra.
  - apply rad2deg_arctan2_right, sqrt_pos.
  - match goal with |- _ <= np.rad2deg (np.arctan2_signed ?z ?y ?x) - 180 <= _ =>
      pose proof (rad2deg_arctan2_signed z y x) end. lra.
Qed.

Lemma astrometry_ra_dec_roll_ranges_witness :
  exists ra dec roll,
    Quaternion.astrometry_ra_dec_roll (1 / 100000000) true true Quaternion.unit
    = Ok [ra; dec; roll]
    /\ -180 <= ra <= 180 /\ -90 <= dec <= 90 /\ -360 <= roll <= 0.
Proof.
  apply (astrometry_ra_dec_roll_ranges (1 / 100000000) true true Quaternion.unit).
  - lra.
  - exact unit_is_unitary.
Defined.

(** ** Products of unit quaternions *)

Lemma general_mul_unit_r (g : GeneralQuaternion.t) :
  GeneralQuaternion.__mul__ g (Quaternion.super Quaternion.unit) = g.
Proof.
  destruct g as [a b c d]. unfold GeneralQuaternion.__mul__, Quaternion.unit.
  cbn [Quaternion.super GeneralQuaternion.qr GeneralQuaternion.qi
       GeneralQuaternion.qj GeneralQuaternion.qk].
  f_equal; ring.
Qed.

Lemma general_mul_unit_l (g : GeneralQuaternion.t) :
  GeneralQuaternion.__mul__ (Quaternion.super Quaternion.unit) g = g.
Proof.
  destruct g as [a b c d]. unfold GeneralQuaternion.__mul__, Quaternion.unit.
  cbn [Quaternion.super GeneralQuaternion.qr GeneralQuaternion.qi
       GeneralQuaternion.qj GeneralQuaternion.qk].
  f_equal; ring.
Qed.

Lemma general_mul_assoc (p q r : GeneralQuaternion.t) :
  GeneralQuaternion.__mul__ (GeneralQuaternion.__mul__ p q) r
  = GeneralQuaternion.__mul__ p (GeneralQuaternion.__mul__ q r).
Proof.
  destruct p as [a b c d], q as [a' b' c' d'], r as [a'' b'' c'' d''].
  unfold GeneralQuaternion.__mul__.
  cbn [GeneralQuaternion.qr GeneralQuaternion.qi GeneralQuaternion.qj GeneralQuaternion.qk].
  f_equal; ring.
Qed.

Lemma super_injective (p q : Quaternion.t) :
  Quaternion.super p = Quaternion.super q -> p = q.
Proof. destruct p, q. simpl. now intros ->. Qed.

(** X20: with a threshold of at most one, the product of two unit
    quaternions is returned without renormalization: it is the unit
    quaternion whose coordinates are the base-algebra product; and the
    identity quaternion is neutral on both sides. *)
Theorem mul_unit_quaternions (tol : R) (p q : Quaternion.t)
    (Htol : tol <= 1) (Hp : Quaternion.is_unitary p) (Hq : Quaternion.is_unitary q) :
  (exists r,
     Quaternion.__mul__ tol p (Quaternion.a_quaternion q) = Ok (Quaternion.a_quaternion r)
     /\ Quaternion.super r
        = GeneralQuaternion.__mul__ (Quaternion.super p) (Quaternion.super q)
     /\ Quaternion.is_unitary r)
  /\ Quaternion.__mul__ tol p (Quaternion.a_quaternion Quaternion.unit)
     = Ok (Quaternion.a_quaternion p)
  /\ Quaternion.__mul__ tol Quaternion.unit (Quaternion.a_quaternion p)
     = Ok (Quaternion.a_quaternion p).
Proof.
  split; [| split].
  - destruct (mul_quaternion_unitary tol p q Htol Hp Hq) as (r & Hr & Hs & Hu).
    exists r. unfold Quaternion.__mul__. rewrite Hr. now repeat split.
  - destruct (mul_quaternion_unitary tol p Quaternion.unit Htol Hp unit_is_unitary)
      as (r & Hr & Hs & _).
    unfold Quaternion.__mul__. rewrite Hr. simpl. do 2 f_equal.
    apply super_injective. rewrite Hs. apply general_mul_unit_r.
  - destruct (mul_quaternion_unitary tol Quaternion.unit p Htol unit_is_unitary Hp)
      as (r & Hr & Hs & _).
    unfold Quaternion.__mul__. rewrite Hr. simpl. do 2 f_equal.
    apply super_injective. rewrite Hs. apply general_mul_unit_l.
Qed.

Lemma mul_unit_quaternions_witness :
  (exists r,
     Quaternion.__mul__ (1 / 100000000)
       (Quaternion.instance (GeneralQuaternion.make 0 1 0 0))
       (Quaternion.a_quaternion (Quaternion.instance (GeneralQuaternion.make 0 1 0 0)))
     = Ok (Quaternion.a_quaternion r)
     /\ Quaternion.super r
        = GeneralQuaternion.__mul__ (GeneralQuaternion.make 0 1 0 0)
                                    (GeneralQuaternion.make 0 1 0 0)
     /\ Quaternion.is_unitary r)
  /\ Quaternion.__mul__ (1 / 100000000)
       (Quaternion.instance (GeneralQuaternion.make 0 1 0 0))
       (Quaternion.a_quaternion Quaternion.unit)
     = Ok (Quaternion.a_quaternion (Quaternion.instance (GeneralQuaternion.make 0 1 0 0)))
  /\ Quaternion.__mul__ (1 / 100000000) Quaternion.unit
       (Quaternion.a_quaternion (Quaternion.instance (GeneralQuaternion.make 0 1 0 0)))
     = Ok (Quaternion.a_quaternion (Quaternion.instance (GeneralQuaternion.make 0 1 0 0))).
Proof.
  apply (mul_unit_quaternions (1 / 100000000)
           (Quaternion.instance (GeneralQuaternion.make 0 1 0 0))
           (Quaternion.instance (GeneralQuaternion.make 0 1 0 0))).
  - lra.
  - exact half_turn_is_unitary.
  - exact half_turn_is_unitary.
Defined.

(** X21: with a threshold of at most one, the product of unit quaternions
    is associative: both groupings return the same quaternion. *)
Theorem mul_quaternion_associative (tol : R) (p q r : Quaternion.t)
    (Htol : tol <= 1) (Hp : Quaternion.is_unitary p) (Hq : Quaternion.is_unitary q)
    (Hr : Quaternion.is_unitary r) :
  exists s,
    (pq <- Quaternion.mul_quaternion tol p q ;; Quaternion.mul_quaternion tol pq r) = Ok s
    /\ (qr <- Quaternion.mul_quaternion tol q r ;; Quaternion.mul_quaternion tol p qr) = Ok s.
Proof.
  destruct (mul_quaternion_unitary tol p q Htol Hp Hq) as (pq & Hpq & Spq & Upq).
  destruct (mul_quaternion_unitary tol q r Htol Hq Hr) as (qr & Hqr & Sqr & Uqr).
  destruct (mul_quaternion_unitary tol pq r Htol Upq Hr) as (s & Hs & Ss & _).
  destruct (mul_quaternion_unitary tol p qr Htol Hp Uqr) as (s' & Hs' & Ss' & _).
  exists s. rewrite Hpq, Hqr. simpl. split; [exact Hs|].
  rewrite Hs'. f_equal. apply super_injective.
  rewrite Ss, Ss', Spq, Sqr. symmetry. apply general_mul_assoc.
Qed.

Lemma mul_quaternion_associative_witness :
  exists s,
    (pq <- Quaternion.mul_quaternion (1 / 100000000) Quaternion.unit
             (Quaternion.instance (GeneralQuaternion.make 0 1 0 0)) ;;
     Quaternion.mul_quaternion (1 / 100000000) pq Quaternion.unit) = Ok s
    /\ (qr <- Quaternion.mul_quaternion (1 / 100000000)
                (Quaternion.instance (GeneralQuaternion.make 0 1 0 0)) Quaternion.unit ;;
        Quaternion.mul_quaternion (1 / 100000000) Quaternion.unit qr) = Ok s.
Proof.
  apply (mul_quaternion_associative (1 / 100000000) Quaternion.unit
           (Quaternion.instance (GeneralQuaternion.make 0 1 0 0)) Quaternion.unit).
  - lra.
  - exact unit_is_unitary.
  - exact half_turn_is_unitary.
  - exact unit_is_unitary.
Defined.

(** ** Edge behaviour of the integration *)

Lemma log_unit : Quaternion.log Quaternion.unit = GeneralQuaternion.make 0 0 0 0.
Proof.
  rewrite (log_unitary_real Quaternion.unit unit_is_unitary).
  - unfold Quaternion.qr, Quaternion.unit.
    cbn [Quaternion.super GeneralQuaternion.qr].
    destruct (Rlt_dec 0 1); [reflexivity | lra].
  - unfold Quaternion.qi, Quaternion.qj, Quaternion.qk, Quaternion.unit.
    cbn [Quaternion.super GeneralQuaternion.qi GeneralQuaternion.qj GeneralQuaternion.qk].
    exact norm_zero3.
Qed.

Lemma map_result_first_failure {A B : Type} (f : A -> result B)
    (pre post : list A) (x : A) (ys : list B) (e : exception) :
  map_result f pre = Ok ys -> f x = Raise e ->
  map_result f (pre ++ x :: post) = Raise e.
Proof.
  revert ys. induction pre as [|a pre IH]; intros ys Hpre Hx; simpl.
  - now rewrite Hx.
  - simpl in Hpre. destruct (f a) as [b|e']; simpl in *; [|discriminate].
    destruct (map_result f pre) as [bs|e']; simpl in *; [|discriminate].
    now rewrite (IH bs eq_refl Hx).
Qed.

(** X22: on no vector at all [integrate_from_velocity_vectors] returns the
    zero rotation vector; and when [from_rotation_vector] raises on some
    vector, having returned on all the earlier ones, the whole call raises
    that exception, whatever follows in the input. *)
Theorem integrate_empty_and_failure (tol : R) (exp : list R -> result Quaternion.t) :
  Quaternion.integrate_from_velocity_vectors tol exp [] = Ok [0; 0; 0]
  /\ forall pre v post qs e,
       map_result (Quaternion.from_rotation_vector exp) pre = Ok qs ->
       Quaternion.from_rotation_vector exp v = Raise e ->
       Quaternion.integrate_from_velocity_vectors tol exp (pre ++ v :: post) = Raise e.
Proof.
  split.
  - unfold Quaternion.integrate_from_velocity_vectors, Quaternion.rotation_vector.
    simpl bind. rewrite log_unit.
    unfold GeneralQuaternion.scalar_mul, GeneralQuaternion.coordinates.
    cbn [GeneralQuaternion.qr GeneralQuaternion.qi GeneralQuaternion.qj
         GeneralQuaternion.qk tl].
    f_equal. apply list3_ext; ring.
  - intros pre v post qs e Hpre Hv.
    unfold Quaternion.integrate_from_velocity_vectors.
    now rewrite (map_result_first_failure _ pre post v qs e Hpre Hv).
Qed.

Lemma integrate_empty_and_failure_witness :
  Quaternion.integrate_from_velocity_vectors (1 / 100000000)
    (fun q => match q with
              | [_; x; _; _] =>
                  if Rlt_dec x 1 then Ok Quaternion.unit else Raise TypeError
              | _ => Raise TypeError
              end)
    ([(0, 0, 0)] ++ (2, 0, 0) :: [(0, 0, 0)]) = Raise TypeError.
Proof.
  apply (proj2 (integrate_empty_and_failure (1 / 100000000) _)
           [(0, 0, 0)] (2, 0, 0) [(0, 0, 0)] [Quaternion.unit] TypeError).
  - unfold map_result, Quaternion.from_rotation_vector.
    destruct (Rlt_dec (1 / 2 * 0) 1); [reflexivity | lra].
  - unfold Quaternion.from_rotation_vector.
    destruct (Rlt_dec (1 / 2 * 2) 1); [lra | reflexivity].
Defined.

(** ** Averaging *)

Lemma dot_diag_entry_any {r n : nat} (a : np.matrix r n) (w : list R) (i l : nat) :
  (l < n)%nat ->
  np.entry (np.dot a (np.diag (n := n) w)) i l = np.entry a i l * nth l w 0.
Proof.
  intros Hl. unfold np.dot, np.diag, np.sum_n; cbn [np.entry].
  apply (sum_seq_diag (fun k => np.entry a i k) w l 0 n). lia.
Qed.

Lemma average_matrix_entry (qs : list Quaternion.t) (w : list R) (i j : nat) :
  np.entry (Quaternion.average_matrix qs w) i j
  = np.sum_n (List.length qs)
      (fun k => nth i (nth k (map Quaternion.coordinates qs) []) 0 * nth k w 0
                * nth j (nth k (map Quaternion.coordinates qs) []) 0).
Proof.
  unfold Quaternion.average_matrix. unfold np.dot at 1. cbn [np.entry]. unfold np.sum_n.
  apply sum_seq_ext. intros k Hk.
  rewrite dot_diag_entry_any by lia. reflexivity.
Qed.

Lemma nth_repeat_lt {A : Type} (x d : A) (n k : nat) :
  (k < n)%nat -> nth k (repeat x n) d = x.
Proof.
  revert k. induction n as [|n IH]; intros k Hk; [lia|].
  destruct k as [|k]; simpl; [reflexivity | apply IH; lia].
Qed.

Lemma sum_seq_factor (x y : R) (f : nat -> R) (start len : nat) :
  fold_right (fun k acc => x * f k * y + acc) 0 (seq start len)
  = x * y * fold_right (fun k acc => f k + acc) 0 (seq start len).
Proof.
  revert start. induction len as [|len IH]; intros start; simpl; [ring|].
  rewrite IH. ring.
Qed.

(** The matrix built from [n] copies of one quaternion: the sum of the
    weights times the outer product of its coordinates. *)
Lemma average_matrix_copies (q : Quaternion.t) (n : nat) (w : list R) (i j : nat) :
  np.entry (Quaternion.average_matrix (repeat q n) w) i j
  = nth i (Quaternion.coordinates q) 0 * nth j (Quaternion.coordinates q) 0
    * np.sum_n n (fun k => nth k w 0).
Proof.
  rewrite average_matrix_entry, repeat_length. unfold np.sum_n.
  rewrite <- sum_seq_factor. apply sum_seq_ext. intros k Hk.
  rewrite map_repeat, nth_repeat_lt by lia. ring.
Qed.

(** The last eigenvector of a positive multiple of the outer product of a
    unit vector with itself is that vector, up to sign. *)
Lemma rank_one_last_column (a b c d W : R) (m V : nat -> nat -> R) (vals : list R) :
  (forall i j, m i j = nth i [a; b; c; d] 0 * nth j [a; b; c; d] 0 * W) ->
  a * a + b * b + c * c + d * d = 1 -> 0 < W ->
  Quaternion.eigh_contract (np.mk_matrix m) vals (np.mk_matrix V) ->
  Quaternion.eigh_orthogonal (np.mk_matrix V) ->
  exists s, (s = 1 \/ s = -1)
    /\ V 0%nat 3%nat = a * s /\ V 1%nat 3%nat = b * s
    /\ V 2%nat 3%nat = c * s /\ V 3%nat 3%nat = d * s.
Proof.
  intros Hm Hsum HW (Hlen & Hasc & Hcols) Horth.
  destruct vals as [|l0 [|l1 [|l2 [|l3 [|]]]]]; try discriminate.
  pose proof (Hasc 0%nat 3%nat ltac:(lia)) as A0.
  pose proof (Hasc 1%nat 3%nat ltac:(lia)) as A1.
  pose proof (Hasc 2%nat 3%nat ltac:(lia)) as A2.
  cbn [nth] in A0, A1, A2.
  destruct (Hcols 0%nat ltac:(lia)) as (_ & E0).
  destruct (Hcols 1%nat ltac:(lia)) as (_ & E1).
  destruct (Hcols 2%nat ltac:(lia)) as (_ & E2).
  destruct (Hcols 3%nat ltac:(lia)) as (N3 & E3).
  clear Hcols Hasc Hlen.
  revert E0 E1 E2 E3 N3 Horth. unfold Quaternion.eigh_orthogonal. np_unfold.
  rewrite !Hm. cbn [nth].
  intros E0 E1 E2 E3 N3 Horth.
  apply unit_sum_squares in N3.
  injection E0 as E00 E01 E02 E03. injection E1 as E10 E11 E12 E13.
  injection E2 as E20 E21 E22 E23. injection E3 as E30 E31 E32 E33.
  injection Horth as R00 R01 R02 R03 R10 R11 R12 R13 R20 R21 R22 R23 R30 R31 R32 R33.
  set (v00 := V 0%nat 0%nat) in *. set (v01 := V 0%nat 1%nat) in *.
  set (v02 := V 0%nat 2%nat) in *. set (v03 := V 0%nat 3%nat) in *.
  set (v10 := V 1%nat 0%nat) in *. set (v11 := V 1%nat 1%nat) in *.
  set (v12 := V 1%nat 2%nat) in *. set (v13 := V 1%nat 3%nat) in *.
  set (v20 := V 2%nat 0%nat) in *. set (v21 := V 2%nat 1%nat) in *.
  set (v22 := V 2%nat 2%nat) in *. set (v23 := V 2%nat 3%nat) in *.
  set (v30 := V 3%nat 0%nat) in *. set (v31 := V 3%nat 1%nat) in *.
  set (v32 := V 3%nat 2%nat) in *. set (v33 := V 3%nat 3%nat) in *.
  set (c0 := a * v00 + b * v10 + c * v20 + d * v30).
  set (c1 := a * v01 + b * v11 + c * v21 + d * v31).
  set (c2 := a * v02 + b * v12 + c * v22 + d * v32).
  set (c3 := a * v03 + b * v13 + c * v23 + d * v33).
  (* the coordinates of the vector in the eigenbasis have squares summing to one *)
  assert (c0 * c0 + c1 * c1 + c2 * c2 + c3 * c3 = 1) as Hc.
  { scale_by (a * a) R00. scale_by (a * b) R01. scale_by (a * c) R02. scale_by (a * d) R03.
    scale_by (b * a) R10. scale_by (b * b) R11. scale_by (b * c) R12. scale_by (b * d) R13.
    scale_by (c * a) R20. scale_by (c * b) R21. scale_by (c * c) R22. scale_by (c * d) R23.
    scale_by (d * a) R30. scale_by (d * b) R31. scale_by (d * c) R32. scale_by (d * d) R33.
    unfold c0, c1, c2, c3. lra. }
  (* every eigenvalue whose eigenvector is not orthogonal to the vector is W *)
  assert (W * c0 = l0 * c0) as F0.
  { scale_by a E00. scale_by b E01. scale_by c E02. scale_by d E03.
    transitivity ((a * a + b * b + c * c + d * d) * (W * c0)); [rewrite Hsum; ring|].
    unfold c0. lra. }
  assert (W * c1 = l1 * c1) as F1.
  { scale_by a E10. scale_by b E11. scale_by c E12. scale_by d E13.
    transitivity ((a * a + b * b + c * c + d * d) * (W * c1)); [rewrite Hsum; ring|].
    unfold c1. lra. }
  assert (W * c2 = l2 * c2) as F2.
  { scale_by a E20. scale_by b E21. scale_by c E22. scale_by d E23.
    transitivity ((a * a + b * b + c * c + d * d) * (W * c2)); [rewrite Hsum; ring|].
    unfold c2. lra. }
  assert (W * c3 = l3 * c3) as F3.
  { pose proof E30 as G0. pose proof E31 as G1. pose proof E32 as G2. pose proof E33 as G3.
    scale_by a G0. scale_by b G1. scale_by c G2. scale_by d G3.
    transitivity ((a * a + b * b + c * c + d * d) * (W * c3)); [rewrite Hsum; ring|].
    unfold c3. lra. }
  assert (W <= l3) as Hge.
  { destruct (Req_dec_T c0 0) as [Z0 | Z0]; [| apply Rmult_eq_reg_r in F0; lra].
    destruct (Req_dec_T c1 0) as [Z1 | Z1]; [| apply Rmult_eq_reg_r in F1; lra].
    destruct (Req_dec_T c2 0) as [Z2 | Z2]; [| apply Rmult_eq_reg_r in F2; lra].
    destruct (Req_dec_T c3 0) as [Z3 | Z3]; [| apply Rmult_eq_reg_r in F3; lra].
    rewrite Z0, Z1, Z2, Z3 in Hc. lra. }
  (* the last eigenvalue is W times the square of the last coordinate *)
  assert (W * (c3 * c3) = l3) as Hl3.
  { pose proof E30 as G0. pose proof E31 as G1. pose proof E32 as G2. pose proof E33 as G3.
    scale_by v03 G0. scale_by v13 G1. scale_by v23 G2. scale_by v33 G3.
    pose proof N3 as N3'. scale_by l3 N3'.
    unfold c3. lra. }
  assert (c3 * c3 = 1) as Hc3 by nra.
  assert (l3 = W) as -> by nra.
  exists c3. split.
  - assert ((c3 - 1) * (c3 + 1) = 0) as H by lra.
    apply Rmult_integral in H. destruct H; [left | right]; lra.
  - repeat split; apply (Rmult_eq_reg_l W); try lra; unfold c3.
    + rewrite <- E30. ring.
    + rewrite <- E31. ring.
    + rewrite <- E32. ring.
    + rewrite <- E33. ring.
Qed.

Lemma coordinates_injective (p q : Quaternion.t) :
  Quaternion.coordinates p = Quaternion.coordinates q -> p = q.
Proof.
  destruct p as [[a b c d]], q as [[a' b' c' d']]. quaternion_unfold.
  now intros [= -> -> -> ->].
Qed.

Lemma nth_ones (n k : nat) : (k < n)%nat -> nth k (np.ones n) 0 = 1.
Proof. apply nth_repeat_lt. Qed.

(** X23: on at least one quaternion, [average] hands [_first_eigenvector]
    the symmetric 4x4 matrix whose entry (i, j) is the sum over the
    quaternions of their weight times the product of coordinates i and j;
    without weights every weight is one. *)
Theorem average_weighted_outer_products (tol : R)
    (eigh : np.matrix 4 4 -> list R * np.matrix 4 4)
    (qs : list Quaternion.t) (weights : option (list R))
    (Hne : qs <> [])
    (Hw : Quaternion.weights_fit (List.length qs) weights) :
  exists M,
    Quaternion.average tol eigh qs weights = Quaternion._first_eigenvector tol eigh M
    /\ (forall i j,
          np.entry M i j
          = np.sum_n (List.length qs)
              (fun k => nth i (nth k (map Quaternion.coordinates qs) []) 0
                        * Quaternion.weight weights k
                        * nth j (nth k (map Quaternion.coordinates qs) []) 0))
    /\ forall i j, np.entry M i j = np.entry M j i.
Proof.
  set (w := match weights with None => np.ones (List.length qs) | Some w => w end).
  assert (List.length w = List.length qs) as Hlen.
  { unfold w. destruct weights as [w'|]; [exact Hw | apply repeat_length]. }
  exists (Quaternion.average_matrix qs w). split; [| split].
  - unfold Quaternion.average. fold w. now rewrite Hlen, Nat.eqb_refl.
  - intros i j. rewrite average_matrix_entry. unfold np.sum_n.
    apply sum_seq_ext. intros k Hk.
    replace (nth k w 0) with (Quaternion.weight weights k); [reflexivity|].
    unfold w, Quaternion.weight. destruct weights as [w'|]; [reflexivity|].
    symmetry. apply nth_ones. lia.
  - intros i j. rewrite !average_matrix_entry. unfold np.sum_n.
    apply sum_seq_ext. intros k _. ring.
Qed.

Lemma average_weighted_outer_products_witness :
  exists M,
    Quaternion.average (1 / 100000000) Quaternion.eigh_of_diag_2_0_0_0
      [Quaternion.unit; Quaternion.unit] (Some [1; 1])
    = Quaternion._first_eigenvector (1 / 100000000) Quaternion.eigh_of_diag_2_0_0_0 M
    /\ (forall i j,
          np.entry M i j
          = np.sum_n 2
              (fun k => nth i (nth k (map Quaternion.coordinates
                                        [Quaternion.unit; Quaternion.unit]) []) 0
                        * Quaternion.weight (Some [1; 1]) k
                        * nth j (nth k (map Quaternion.coordinates
                                          [Quaternion.unit; Quaternion.unit]) []) 0))
    /\ forall i j, np.entry M i j = np.entry M j i.
Proof.
  apply (average_weighted_outer_products (1 / 100000000) Quaternion.eigh_of_diag_2_0_0_0
           [Quaternion.unit; Quaternion.unit] (Some [1; 1])).
  - discriminate.
  - reflexivity.
Defined.

(** X24: averaging copies of one unit quaternion whose weights have a
    positive sum returns that quaternion or its negation, the one with a
    scalar part that is not negative, whenever the eigensolver keeps numpy's
    contract on the matrix it is given and returns orthonormal eigenvectors. *)
Theorem average_of_copies (tol : R) (eigh : np.matrix 4 4 -> list R * np.matrix 4 4)
    (q : Quaternion.t) (n : nat) (weights : option (list R))
    (vals : list R) (vecs : np.matrix 4 4)
    (Hq : Quaternion.is_unitary q) (Htol : tol <= 1)
    (Hw : Quaternion.weights_fit n weights)
    (Hsum : 0 < np.sum_n n (Quaternion.weight weights))
    (He : eigh (Quaternion.average_matrix (repeat q n)
                  (match weights with None => np.ones n | Some w => w end))
          = (vals, vecs))
    (Hc : Quaternion.eigh_contract
            (Quaternion.average_matrix (repeat q n)
               (match weights with None => np.ones n | Some w => w end))
            vals vecs)
    (Ho : Quaternion.eigh_orthogonal vecs) :
  exists r,
    Quaternion.average tol eigh (repeat q n) weights = Ok r
    /\ (r = q \/ r = Quaternion.__neg__ q)
    /\ 0 <= Quaternion.qr r.
Proof.
  set (w := match weights with None => np.ones n | Some w => w end) in *.
  assert (List.length w = n) as Hlen.
  { unfold w. destruct weights as [w'|]; [exact Hw | apply repeat_length]. }
  assert (np.sum_n n (fun k => nth k w 0) = np.sum_n n (Quaternion.weight weights)) as HW.
  { unfold np.sum_n. apply sum_seq_ext. intros k Hk.
    unfold w, Quaternion.weight. destruct weights as [w'|]; [reflexivity|].
    apply nth_ones. lia. }
  pose proof (unitary_sum_squares q Hq) as Hsq.
  pose proof (average_matrix_copies q n w) as HM. rewrite HW in HM.
  assert (Quaternion.average tol eigh (repeat q n) weights
          = Quaternion._first_eigenvector tol eigh
              (Quaternion.average_matrix (repeat q n) w)) as Havg.
  { unfold Quaternion.average. rewrite repeat_length. fold w.
    now rewrite Hlen, Nat.eqb_refl. }
  rewrite Havg. clear Havg.
  destruct (Hc) as (_ & _ & Hcols). destruct (Hcols 3%nat ltac:(lia)) as (Hn3 & _).
  destruct (first_eigenvector_returns tol eigh _ vals vecs Htol He Hn3)
    as (r & Hr & _ & Hpos & Hcoords).
  exists r. split; [exact Hr|]. split; [| exact Hpos].
  remember (Quaternion.average_matrix (repeat q n) w) as M eqn:EM. clear EM He Hr.
  destruct M as [m], vecs as [V], q as [[a b c d]].
  cbn [np.entry] in HM. revert Hsq HM Hcoords. quaternion_unfold. np_unfold.
  intros Hsq HM Hcoords.
  destruct (rank_one_last_column a b c d (np.sum_n n (Quaternion.weight weights))
              m V vals HM Hsq Hsum Hc Ho) as (s & Hs & V0 & V1 & V2 & V3).
  rewrite V0, V1, V2, V3 in Hcoords.
  unfold Quaternion.__neg__, GeneralQuaternion.__neg__.
  cbn [Quaternion.super GeneralQuaternion.qr GeneralQuaternion.qi
       GeneralQuaternion.qj GeneralQuaternion.qk].
  destruct Hs as [-> | ->]; destruct (Rlt_dec _ 0);
    [right | left | left | right];
    apply coordinates_injective; (etransitivity; [exact Hcoords|]);
    quaternion_unfold; apply list4_ext; ring.
Qed.

Lemma average_of_copies_witness :
  exists r,
    Quaternion.average (1 / 100000000) Quaternion.eigh_of_diag_2_0_0_0
      (repeat Quaternion.unit 2) None = Ok r
    /\ (r = Quaternion.unit \/ r = Quaternion.__neg__ Quaternion.unit)
    /\ 0 <= Quaternion.qr r.
Proof.
  apply (average_of_copies (1 / 100000000) Quaternion.eigh_of_diag_2_0_0_0
           Quaternion.unit 2 None [0; 0; 0; 2]
           (np.array [[0; 0; 0; 1]; [1; 0; 0; 0]; [0; 1; 0; 0]; [0; 0; 1; 0]])).
  - exact unit_is_unitary.
  - lra.
  - exact I.
  - unfold Quaternion.weight. np_unfold. lra.
  - reflexivity.
  - split; [reflexivity|]. split.
    + intros i j Hij.
      destruct i as [|[|[|[|i]]]], j as [|[|[|[|j]]]]; simpl; try lia; lra.
    + intros i Hi. destruct i as [|[|[|[|i]]]]; try lia;
        (split; [apply norm4_of_sum; np_unfold; ring
                | cbv [Quaternion.average_matrix repeat np.ones Quaternion.unit];
                  quaternion_unfold; np_unfold; entrywise; ring]).
  - unfold Quaternion.eigh_orthogonal. np_unfold. entrywise; ring.
Defined.

(** ** The q-method on rotated observations *)

(** [K] applied to a vector depends on the entries of [B] only. *)
Lemma qmethod_K_dot_ext (f g : nat -> nat -> R) (v : list R) :
  (forall i j, f i j = g i j) ->
  np.dot_vec (Quaternion.from_qmethod_K (np.mk_matrix f)) v
  = np.dot_vec (Quaternion.from_qmethod_K (np.mk_matrix g)) v.
Proof.
  intros H. unfold Quaternion.from_qmethod_K. np_unfold. now rewrite !H.
Qed.

(** [K] applied to a vector is additive in [B]. *)
Lemma qmethod_K_dot_add (f g : nat -> nat -> R) (a b c d : R) :
  np.dot_vec (Quaternion.from_qmethod_K (np.mk_matrix (fun i j => f i j + g i j)))
             [a; b; c; d]
  = np.multiply [1; 1; 1; 1]
      (map (fun k =>
              nth k (np.dot_vec (Quaternion.from_qmethod_K (np.mk_matrix f)) [a; b; c; d]) 0
              + nth k (np.dot_vec (Quaternion.from_qmethod_K (np.mk_matrix g)) [a; b; c; d]) 0)
           (seq 0 4)).
Proof.
  unfold Quaternion.from_qmethod_K. np_unfold. entrywise; ring.
Qed.

(** One observation [s] and its image under the matrix of a unit quaternion:
    the quaternion is an eigenvector of [K], for the eigenvalue [w |s|^2]. *)
Lemma qmethod_K_single (a b c d w : R) (s : nat -> R) :
  a * a + b * b + c * c + d * d = 1 ->
  np.dot_vec
    (Quaternion.from_qmethod_K
       (np.mk_matrix
          (fun i j =>
             s i * w
             * nth j (np.dot_vec
                        (Quaternion.matrix
                           (Quaternion.instance (GeneralQuaternion.make a b c d)))
                        [s 0%nat; s 1%nat; s 2%nat]) 0)))
    [a; b; c; d]
  = map (Rmult (w * (s 0%nat * s 0%nat + s 1%nat * s 1%nat + s 2%nat * s 2%nat)))
        [a; b; c; d].
Proof.
  intros Hsum. unfold Quaternion.from_qmethod_K. quaternion_unfold. np_unfold.
  set (x := s 0%nat). set (y := s 1%nat). set (z := s 2%nat).
  apply list4_ext.
  - transitivity ((a * a + b * b + c * c + d * d) * (w * (x * x + y * y + z * z) * a));
      [ring | rewrite Hsum; ring].
  - transitivity ((a * a + b * b + c * c + d * d) * (w * (x * x + y * y + z * z) * b));
      [ring | rewrite Hsum; ring].
  - transitivity ((a * a + b * b + c * c + d * d) * (w * (x * x + y * y + z * z) * c));
      [ring | rewrite Hsum; ring].
  - transitivity ((a * a + b * b + c * c + d * d) * (w * (x * x + y * y + z * z) * d));
      [ring | rewrite Hsum; ring].
Qed.

Lemma qmethod_K_sum (a b c d : R) (w : nat -> R) (s : nat -> nat -> R) (start len : nat) :
  a * a + b * b + c * c + d * d = 1 ->
  np.dot_vec
    (Quaternion.from_qmethod_K
       (np.mk_matrix
          (fun i j =>
             fold_right
               (fun k acc =>
                  s i k * w k
                  * nth j (np.dot_vec
                             (Quaternion.matrix
                                (Quaternion.instance (GeneralQuaternion.make a b c d)))
                             [s 0%nat k; s 1%nat k; s 2%nat k]) 0
                  + acc) 0 (seq start len))))
    [a; b; c; d]
  = map (Rmult (fold_right
                  (fun k acc =>
                     w k * (s 0%nat k * s 0%nat k + s 1%nat k * s 1%nat k
                            + s 2%nat k * s 2%nat k) + acc) 0 (seq start len)))
        [a; b; c; d].
Proof.
  intros Hsum. revert start. induction len as [|len IH]; intros start.
  - cbn [seq fold_right]. unfold Quaternion.from_qmethod_K. np_unfold. entrywise; ring.
  - cbn [seq fold_right].
    rewrite (qmethod_K_dot_add
               (fun i j =>
                  s i start * w start
                  * nth j (np.dot_vec
                             (Quaternion.matrix
                                (Quaternion.instance (GeneralQuaternion.make a b c d)))
                             [s 0%nat start; s 1%nat start; s 2%nat start]) 0)).
    rewrite (IH (S start)).
    rewrite (qmethod_K_single a b c d (w start) (fun i => s i start) Hsum).
    cbn [seq map nth np.multiply]. apply list4_ext; ring.
Qed.

Lemma qmethod_K_dot_ext3 (f g : nat -> nat -> R) (v : list R) :
  (forall i j, (i < 3)%nat -> (j < 3)%nat -> f i j = g i j) ->
  np.dot_vec (Quaternion.from_qmethod_K (np.mk_matrix f)) v
  = np.dot_vec (Quaternion.from_qmethod_K (np.mk_matrix g)) v.
Proof.
  intros H. unfold Quaternion.from_qmethod_K. np_unfold.
  rewrite !(H 0%nat 0%nat), !(H 0%nat 1%nat), !(H 0%nat 2%nat),
    !(H 1%nat 0%nat), !(H 1%nat 1%nat), !(H 1%nat 2%nat),
    !(H 2%nat 0%nat), !(H 2%nat 1%nat), !(H 2%nat 2%nat) by lia.
  reflexivity.
Qed.

(** X25: when the target observations are the source observations rotated
    by the matrix of a unit quaternion [q], [q] is an eigenvector of the
    matrix [K] that [from_qmethod] builds, for the eigenvalue that sums the
    weight times the squared length of every source observation. *)
Theorem from_qmethod_rotated_observations (n : nat) (q : Quaternion.t)
    (source : np.matrix 3 n) (probabilities : option (list R))
    (Hq : Quaternion.is_unitary q) (Hw : Quaternion.weights_fit n probabilities) :
  exists B,
    Quaternion.from_qmethod_B source (np.dot (Quaternion.matrix q) source) probabilities
    = Ok B
    /\ np.dot_vec (Quaternion.from_qmethod_K B) (Quaternion.coordinates q)
       = map (Rmult (np.sum_n n
                       (fun k => Quaternion.weight probabilities k
                                 * (np.entry source 0 k * np.entry source 0 k
                                    + np.entry source 1 k * np.entry source 1 k
                                    + np.entry source 2 k * np.entry source 2 k))))
             (Quaternion.coordinates q).
Proof.
  pose proof (unitary_sum_squares q Hq) as Hsum.
  destruct (from_qmethod_B_entries source (np.dot (Quaternion.matrix q) source)
              probabilities Hw) as (B & HB & Hent).
  exists B. split; [exact HB|].
  destruct B as [bf], q as [[a b c d]]. cbn [np.entry] in Hent.
  revert Hsum. unfold Quaternion.qr, Quaternion.qi, Quaternion.qj, Quaternion.qk,
    Quaternion.coordinates, GeneralQuaternion.coordinates.
  cbn [Quaternion.super GeneralQuaternion.qr GeneralQuaternion.qi
       GeneralQuaternion.qj GeneralQuaternion.qk].
  intros Hsum.
  rewrite (qmethod_K_dot_ext3 bf
             (fun i j =>
                fold_right
                  (fun k acc =>
                     np.entry source i k * Quaternion.weight probabilities k
                     * nth j (np.dot_vec
                                (Quaternion.matrix
                                   (Quaternion.instance (GeneralQuaternion.make a b c d)))
                                [np.entry source 0 k; np.entry source 1 k;
                                 np.entry source 2 k]) 0
                     + acc) 0 (seq 0 n))).
  - apply (qmethod_K_sum a b c d (Quaternion.weight probabilities)
             (fun i k => np.entry source i k) 0 n Hsum).
  - intros i j Hi Hj. rewrite Hent.
    unfold Quaternion.weighted_cross_covariance, np.sum_n.
    apply sum_seq_ext. intros k _. f_equal.
    destruct j as [|[|[|j]]]; try lia; reflexivity.
Qed.

Lemma from_qmethod_rotated_observations_witness :
  exists B,
    Quaternion.from_qmethod_B (np.identity 3)
      (np.dot (Quaternion.matrix Quaternion.unit) (np.identity 3)) (Some [1; 1; 1]) = Ok B
    /\ np.dot_vec (Quaternion.from_qmethod_K B) (Quaternion.coordinates Quaternion.unit)
       = map (Rmult (np.sum_n 3
                       (fun k => Quaternion.weight (Some [1; 1; 1]) k
                                 * (np.entry (np.identity 3) 0 k * np.entry (np.identity 3) 0 k
                                    + np.entry (np.identity 3) 1 k * np.entry (np.identity 3) 1 k
                                    + np.entry (np.identity 3) 2 k
                                      * np.entry (np.identity 3) 2 k))))
             (Quaternion.coordinates Quaternion.unit).
Proof.
  apply (from_qmethod_rotated_observations 3 Quaternion.unit (np.identity 3)
           (Some [1; 1; 1])).
  - exact unit_is_unitary.
  - reflexivity.
Defined.

(** X26: the matrix [K] has trace zero, and exchanging the roles of source
    and target transposes [B] and conjugates the eigenvectors of [K]: if
    (q0, q1, q2, q3) is an eigenvector for source and target, then
    (q0, -q1, -q2, -q3) is one for target and source, for the same eigenvalue. *)
Theorem from_qmethod_swap_conjugates (n : nat) (source target : np.matrix 3 n)
    (probabilities : option (list R)) (Hw : Quaternion.weights_fit n probabilities) :
  exists B B',
    Quaternion.from_qmethod_B source target probabilities = Ok B
    /\ Quaternion.from_qmethod_B target source probabilities = Ok B'
    /\ (forall i j, np.entry B' i j = np.entry B j i)
    /\ np.trace (Quaternion.from_qmethod_K B) = 0
    /\ forall q0 q1 q2 q3 lam,
         np.dot_vec (Quaternion.from_qmethod_K B) [q0; q1; q2; q3]
         = map (Rmult lam) [q0; q1; q2; q3] ->
         np.dot_vec (Quaternion.from_qmethod_K B') [q0; - q1; - q2; - q3]
         = map (Rmult lam) [q0; - q1; - q2; - q3].
Proof.
  destruct (from_qmethod_B_entries source target probabilities Hw) as (B & HB & Hent).
  destruct (from_qmethod_B_entries target source probabilities Hw) as (B' & HB' & Hent').
  exists B, B'. split; [exact HB|]. split; [exact HB'|].
  assert (forall i j, np.entry B' i j = np.entry B j i) as Ht.
  { intros i j. rewrite Hent, Hent'.
    unfold Quaternion.weighted_cross_covariance, np.sum_n.
    apply sum_seq_ext. intros k _. ring. }
  split; [exact Ht|].
  destruct B as [bf], B' as [bf']. cbn [np.entry] in Ht.
  split.
  - unfold Quaternion.from_qmethod_K. np_unfold. ring.
  - intros q0 q1 q2 q3 lam. unfold Quaternion.from_qmethod_K. np_unfold.
    rewrite !Ht. intros H. injection H as H0 H1 H2 H3.
    apply list4_ext; lra.
Qed.

Lemma from_qmethod_swap_conjugates_witness :
  exists B B',
    Quaternion.from_qmethod_B (np.identity 3) (np.identity 3) (Some [1; 1; 1]) = Ok B
    /\ Quaternion.from_qmethod_B (np.identity 3) (np.identity 3) (Some [1; 1; 1]) = Ok B'
    /\ (forall i j, np.entry B' i j = np.entry B j i)
    /\ np.trace (Quaternion.from_qmethod_K B) = 0
    /\ forall q0 q1 q2 q3 lam,
         np.dot_vec (Quaternion.from_qmethod_K B) [q0; q1; q2; q3]
         = map (Rmult lam) [q0; q1; q2; q3] ->
         np.dot_vec (Quaternion.from_qmethod_K B') [q0; - q1; - q2; - q3]
         = map (Rmult lam) [q0; - q1; - q2; - q3].
Proof.
  apply (from_qmethod_swap_conjugates 3 (np.identity 3) (np.identity 3) (Some [1; 1; 1])).
  reflexivity.
Defined.

(** ** The round trip in binary64 *)

